(** * assignment0.js: a retained list of WebGL2 shapes and its render loop

    A shallow embedding of [src/assignment0.js] (classes [Shape], [Triangle]
    and [WebGlApp]) over a model of the WebGL2 rendering context, followed by
    the properties of the program that the specification states.

    - JavaScript numbers are kept abstract behind the class [JSNumber], with
      two instances: IEEE binary64 ([float], what the program runs on) and
      the real numbers ([R], the exact geometry).
    - The rendering context is a recording device: it hands out object
      handles, keeps the bind points and the buffer data stores, and returns
      the list of calls every operation issued.
    - Methods that touch the context are computations in the monad [GL.M].
    - [WebGlApp.initGl] only asks the document for the context of the canvas;
      it is the source of the context the other methods receive and has no
      counterpart here. *)

From Stdlib Require Import ZArith List String Reals Lra Floats.
From stdpp Require Import gmap strings list.
Import ListNotations.

(** ** JavaScript numbers and typed arrays *)

Module JS.

(** The arithmetic the program performs on numbers. [num_lit] reads an integer
    literal, [num_fround] is the conversion to single precision that storing
    into a [Float32Array] applies. *)
Class JSNumber (num : Type) := {
  num_add : num -> num -> num;
  num_sub : num -> num -> num;
  num_mul : num -> num -> num;
  num_div : num -> num -> num;
  num_lit : Z -> num;
  num_fround : num -> num;
}.

(** What the program takes from its environment: [Math.cos] and [Math.sin],
    and the two helpers it imports from [./js/utils/utils.js]. *)
Class Host (num : Type) := {
  Math_cos : num -> num;
  Math_sin : num -> num;
  deg2rad : num -> num;
  hex2rgb : string -> list num;
}.

(** ToUint16 of an integral number: the element conversion of [Uint16Array]. *)
Definition ToUint16 (z : Z) : Z := z mod 65536.

Inductive TypedArray (num : Type) : Type :=
| Float32Array (elems : list num)
| Uint16Array (elems : list Z).
Arguments Float32Array {num} elems.
Arguments Uint16Array {num} elems.

(** [new Float32Array(array)] and [new Uint16Array(array)]. *)
Definition new_Float32Array {num} `{JSNumber num} (a : list num) : TypedArray num :=
  Float32Array (map num_fround a).

Definition new_Uint16Array {num} (a : list Z) : TypedArray num :=
  Uint16Array (map ToUint16 a).

End JS.
Export JS.

(** ** The WebGL2 rendering context *)

Module GL.

Inductive BufferTarget := ARRAY_BUFFER | ELEMENT_ARRAY_BUFFER.
Inductive DrawMode := POINTS | TRIANGLES.
Inductive DataType := FLOAT | UNSIGNED_SHORT.
Inductive Usage := STATIC_DRAW.
Inductive ClearMask := COLOR_BUFFER_BIT.

(** Object handles. A handle is the position of the object among those the
    context created; [None] is JavaScript's [null]. *)
Definition WebGLBuffer := nat.
Definition WebGLVertexArrayObject := nat.

(** A linked program, as far as the context answers questions about it: the
    locations of its active attributes and uniforms. *)
Record WebGLProgram := {
  attributes : gmap string Z;
  uniforms : gmap string nat;
}.

(** The [Shader] objects the program is handed; it reads only their
    [program] property. *)
Record Shader := { program : WebGLProgram }.

(** A shader whose program has the attribute and the uniform the program
    looks up, both at location 0. *)
Definition basic_shader : Shader :=
  {| program := {| attributes := {["a_position"%string := 0%Z]};
                   uniforms := {["u_color"%string := 0%nat]} |} |}.

Section Context.
Context {num : Type} `{JSNumber num}.

(** One call on the context, with its arguments and (for the calls that
    return something) its result. *)
Inductive Call : Type :=
| CreateBuffer (ret : WebGLBuffer)
| CreateVertexArray (ret : WebGLVertexArrayObject)
| BindBuffer (target : BufferTarget) (buffer : option WebGLBuffer)
| BufferData (target : BufferTarget) (data : TypedArray num) (usage : Usage)
| BindVertexArray (vao : option WebGLVertexArrayObject)
| GetAttribLocation (prog : WebGLProgram) (name : string) (ret : Z)
| EnableVertexAttribArray (index : Z)
| VertexAttribPointer (index size : Z) (type : DataType) (normalized : bool)
                      (stride offset : Z)
| GetUniformLocation (prog : WebGLProgram) (name : string) (ret : option nat)
| Uniform3fv (location : option nat) (value : list num)
| DrawElements (mode : DrawMode) (count : Z) (type : DataType) (offset : Z)
| Viewport (x y width height : Z)
| ClearColor (r g b a : option num)
| Clear (mask : ClearMask).

(** The state of the context: the buffer objects it created with their data
    stores ([None] until [bufferData]), the number of vertex array objects it
    created, what is bound at each bind point, the viewport, the clear
    colour, and the largest viewport width and height the implementation
    supports (MAX_VIEWPORT_DIMS, a constant of the context). *)
Record State := {
  buffers : list (option (TypedArray num));
  vertex_arrays : nat;
  array_buffer_binding : option WebGLBuffer;
  element_array_buffer_binding : option WebGLBuffer;
  vertex_array_binding : option WebGLVertexArrayObject;
  viewport_box : Z * Z * Z * Z;
  clear_value : option num * option num * option num * option num;
  max_viewport_dims : Z * Z;
}.

Definition set_buffers (f : list (option (TypedArray num)) -> list (option (TypedArray num)))
    (s : State) : State :=
  {| buffers := f (buffers s);
     vertex_arrays := vertex_arrays s;
     array_buffer_binding := array_buffer_binding s;
     element_array_buffer_binding := element_array_buffer_binding s;
     vertex_array_binding := vertex_array_binding s;
     viewport_box := viewport_box s;
     clear_value := clear_value s;
     max_viewport_dims := max_viewport_dims s |}.

Definition set_vertex_arrays (n : nat) (s : State) : State :=
  {| buffers := buffers s;
     vertex_arrays := n;
     array_buffer_binding := array_buffer_binding s;
     element_array_buffer_binding := element_array_buffer_binding s;
     vertex_array_binding := vertex_array_binding s;
     viewport_box := viewport_box s;
     clear_value := clear_value s;
     max_viewport_dims := max_viewport_dims s |}.

Definition binding (target : BufferTarget) (s : State) : option WebGLBuffer :=
  match target with
  | ARRAY_BUFFER => array_buffer_binding s
  | ELEMENT_ARRAY_BUFFER => element_array_buffer_binding s
  end.

Definition set_binding (target : BufferTarget) (b : option WebGLBuffer) (s : State) : State :=
  {| buffers := buffers s;
     vertex_arrays := vertex_arrays s;
     array_buffer_binding :=
       match target with ARRAY_BUFFER => b | _ => array_buffer_binding s end;
     element_array_buffer_binding :=
       match target with ELEMENT_ARRAY_BUFFER => b | _ => element_array_buffer_binding s end;
     vertex_array_binding := vertex_array_binding s;
     viewport_box := viewport_box s;
     clear_value := clear_value s;
     max_viewport_dims := max_viewport_dims s |}.

Definition set_vertex_array_binding (v : option WebGLVertexArrayObject) (s : State) : State :=
  {| buffers := buffers s;
     vertex_arrays := vertex_arrays s;
     array_buffer_binding := array_buffer_binding s;
     element_array_buffer_binding := element_array_buffer_binding s;
     vertex_array_binding := v;
     viewport_box := viewport_box s;
     clear_value := clear_value s;
     max_viewport_dims := max_viewport_dims s |}.

Definition set_viewport_box (box : Z * Z * Z * Z) (s : State) : State :=
  {| buffers := buffers s;
     vertex_arrays := vertex_arrays s;
     array_buffer_binding := array_buffer_binding s;
     element_array_buffer_binding := element_array_buffer_binding s;
     vertex_array_binding := vertex_array_binding s;
     viewport_box := box;
     clear_value := clear_value s;
     max_viewport_dims := max_viewport_dims s |}.

Definition set_clear_value (c : option num * option num * option num * option num)
    (s : State) : State :=
  {| buffers := buffers s;
     vertex_arrays := vertex_arrays s;
     array_buffer_binding := array_buffer_binding s;
     element_array_buffer_binding := element_array_buffer_binding s;
     vertex_array_binding := vertex_array_binding s;
     viewport_box := viewport_box s;
     clear_value := c;
     max_viewport_dims := max_viewport_dims s |}.

(** A context on which nothing was created and nothing is bound; its largest
    viewport is 16384 by 16384, a common value of MAX_VIEWPORT_DIMS. *)
Definition fresh : State :=
  {| buffers := [];
     vertex_arrays := 0;
     array_buffer_binding := None;
     element_array_buffer_binding := None;
     vertex_array_binding := None;
     viewport_box := (0, 0, 0, 0)%Z;
     clear_value := (None, None, None, None);
     max_viewport_dims := (16384, 16384)%Z |}.

(** The device objects that exist on the context. *)
Definition resources (s : State) : nat := length (buffers s) + vertex_arrays s.

(** The bind points, as one value. *)
Definition bindings (s : State)
  : option WebGLVertexArrayObject * option WebGLBuffer * option WebGLBuffer :=
  (vertex_array_binding s, array_buffer_binding s, element_array_buffer_binding s).

(** *** Computations on the context

    A computation takes the state of the context and gives its result, the
    state it leaves, and the calls it issued, oldest first. *)
Definition M (A : Type) : Type := State -> A * State * list Call.

Definition ret {A} (a : A) : M A := fun s => (a, s, []).

Definition bind {A B} (m : M A) (k : A -> M B) : M B :=
  fun s =>
    let '(a, s1, c1) := m s in
    let '(b, s2, c2) := k a s1 in
    (b, s2, c1 ++ c2).

Definition result {A} (r : A * State * list Call) : A := fst (fst r).
Definition state {A} (r : A * State * list Call) : State := snd (fst r).
Definition calls {A} (r : A * State * list Call) : list Call := snd r.

(** *** The methods of the context that the program calls *)

Definition createBuffer : M WebGLBuffer :=
  fun s =>
    let b := length (buffers s) in
    (b, set_buffers (fun bs => bs ++ [None]) s, [CreateBuffer b]).

Definition createVertexArray : M WebGLVertexArrayObject :=
  fun s =>
    let v := vertex_arrays s in
    (v, set_vertex_arrays (S v) s, [CreateVertexArray v]).

Definition bindBuffer (target : BufferTarget) (buffer : option WebGLBuffer) : M unit :=
  fun s => (tt, set_binding target buffer s, [BindBuffer target buffer]).

(** [bufferData] fills the data store of the buffer bound to [target]; with
    nothing bound it only raises the context's error flag. *)
Definition bufferData (target : BufferTarget) (data : TypedArray num) (usage : Usage)
  : M unit :=
  fun s =>
    (tt,
     match binding target s with
     | Some b => set_buffers (fun bs => <[b := Some data]> bs) s
     | None => s
     end,
     [BufferData target data usage]).

Definition bindVertexArray (vao : option WebGLVertexArrayObject) : M unit :=
  fun s => (tt, set_vertex_array_binding vao s, [BindVertexArray vao]).

(** [getAttribLocation] answers -1 for a name that is no active attribute,
    [getUniformLocation] answers [null]. *)
Definition getAttribLocation (prog : WebGLProgram) (name : string) : M Z :=
  fun s =>
    let loc := default (-1)%Z (attributes prog !! name) in
    (loc, s, [GetAttribLocation prog name loc]).

Definition getUniformLocation (prog : WebGLProgram) (name : string) : M (option nat) :=
  fun s =>
    let loc := uniforms prog !! name in
    (loc, s, [GetUniformLocation prog name loc]).

Definition enableVertexAttribArray (index : Z) : M unit :=
  fun s => (tt, s, [EnableVertexAttribArray index]).

Definition vertexAttribPointer (index size : Z) (type : DataType) (normalized : bool)
    (stride offset : Z) : M unit :=
  fun s => (tt, s, [VertexAttribPointer index size type normalized stride offset]).

Definition uniform3fv (location : option nat) (value : list num) : M unit :=
  fun s => (tt, s, [Uniform3fv location value]).

Definition drawElements (mode : DrawMode) (count : Z) (type : DataType) (offset : Z)
  : M unit :=
  fun s => (tt, s, [DrawElements mode count type offset]).

(** [viewport] with a negative width or height raises INVALID_VALUE and
    keeps the viewport; otherwise the width and the height are clamped to the
    largest the implementation supports. *)
Definition accepted_viewport (s : State) (x y width height : Z) : Z * Z * Z * Z :=
  if ((width <? 0) || (height <? 0))%Z then viewport_box s
  else (x, y, Z.min width (fst (max_viewport_dims s)),
              Z.min height (snd (max_viewport_dims s))).

Definition viewport (x y width height : Z) : M unit :=
  fun s =>
    (tt, set_viewport_box (accepted_viewport s x y width height) s,
     [Viewport x y width height]).

(** [clearColor] takes its arguments as 32-bit floats: the context keeps the
    components converted to single precision. *)
Definition clearColor (r g b a : option num) : M unit :=
  fun s =>
    (tt,
     set_clear_value (option_map num_fround r, option_map num_fround g,
                      option_map num_fround b, option_map num_fround a) s,
     [ClearColor r g b a]).

Definition clear (mask : ClearMask) : M unit :=
  fun s => (tt, s, [Clear mask]).

(** [for (const x of l) body(x)] *)
Fixpoint for_of {A} (l : list A) (body : A -> M unit) : M unit :=
  match l with
  | [] => ret tt
  | x :: l' => bind (body x) (fun _ => for_of l' body)
  end.

(** *** Reading a list of calls *)

Definition is_draw (c : Call) : bool :=
  match c with DrawElements _ _ _ _ => true | _ => false end.

Definition is_viewport (c : Call) : bool :=
  match c with Viewport _ _ _ _ => true | _ => false end.

Definition is_clear (c : Call) : bool :=
  match c with Clear _ => true | _ => false end.

Definition is_clearColor (c : Call) : bool :=
  match c with ClearColor _ _ _ _ => true | _ => false end.

Definition is_create (c : Call) : bool :=
  match c with CreateBuffer _ | CreateVertexArray _ => true | _ => false end.

(** The bind point a call binds something to. *)
Inductive BindPoint := VERTEX_ARRAY | BUFFER (target : BufferTarget).

Definition BindPoint_eqb (p q : BindPoint) : bool :=
  match p, q with
  | VERTEX_ARRAY, VERTEX_ARRAY => true
  | BUFFER ARRAY_BUFFER, BUFFER ARRAY_BUFFER => true
  | BUFFER ELEMENT_ARRAY_BUFFER, BUFFER ELEMENT_ARRAY_BUFFER => true
  | _, _ => false
  end.

Definition bind_of (c : Call) : option (BindPoint * option nat) :=
  match c with
  | BindBuffer target b => Some (BUFFER target, b)
  | BindVertexArray v => Some (VERTEX_ARRAY, v)
  | _ => None
  end.

Definition is_bind (p : BindPoint) (c : Call) : bool :=
  match bind_of c with
  | Some (q, Some _) => BindPoint_eqb p q
  | _ => false
  end.

Definition is_unbind (p : BindPoint) (c : Call) : bool :=
  match bind_of c with
  | Some (q, None) => BindPoint_eqb p q
  | _ => false
  end.

(** Every call that binds an object is followed, later in the list, by a call
    that binds [null] at the same bind point. *)
Fixpoint binds_paired (cs : list Call) : bool :=
  match cs with
  | [] => true
  | c :: cs' =>
      match bind_of c with
      | Some (p, Some _) => existsb (is_unbind p) cs'
      | _ => true
      end && binds_paired cs'
  end.

(** What the list leaves bound at [p] when run with [p] holding [before]. *)
Fixpoint left_bound (p : BindPoint) (before : option nat) (cs : list Call) : option nat :=
  match cs with
  | [] => before
  | c :: cs' =>
      match bind_of c with
      | Some (q, o) => left_bound p (if BindPoint_eqb p q then o else before) cs'
      | None => left_bound p before cs'
      end
  end.

(** Nothing is bound at any bind point. *)
Definition unbound (s : State) : Prop := bindings s = (None, None, None).

(** A computation restores the bind points: each of its binds has its
    unbind, the calls it issued leave every bind point at [null], and a
    context it found unbound is unbound when it returns. *)
Definition restores_bindings {A} (m : M A) : Prop :=
  forall s,
    binds_paired (calls (m s)) = true
    /\ (forall p, left_bound p None (calls (m s)) = None)
    /\ (unbound s -> unbound (state (m s))).

(** *** Reading the objects and the calls further *)

(** The data store of the buffer a handle names, if the handle names a buffer
    of the context that has one. *)
Definition data_store (s : State) (h : option WebGLBuffer) : option (TypedArray num) :=
  match h with
  | Some b => match buffers s !! b with Some d => d | None => None end
  | None => None
  end.

(** The handle names a vertex array object of the context. *)
Definition is_vertex_array (s : State) (h : option WebGLVertexArrayObject) : bool :=
  match h with
  | Some v => Nat.ltb v (vertex_arrays s)
  | None => false
  end.

Definition is_upload (c : Call) : bool :=
  match c with BufferData _ _ _ => true | _ => false end.

Definition is_attribute_setup (c : Call) : bool :=
  match c with
  | EnableVertexAttribArray _ | VertexAttribPointer _ _ _ _ _ _ => true
  | _ => false
  end.

Definition is_uniform (c : Call) : bool :=
  match c with Uniform3fv _ _ => true | _ => false end.

(** What is bound at the three bind points (vertex array, ARRAY_BUFFER,
    ELEMENT_ARRAY_BUFFER) after a call, given what was bound before it. *)
Definition rebind
    (b : option WebGLVertexArrayObject * option WebGLBuffer * option WebGLBuffer)
    (c : Call)
  : option WebGLVertexArrayObject * option WebGLBuffer * option WebGLBuffer :=
  match c with
  | BindVertexArray v => (v, snd (fst b), snd b)
  | BindBuffer ARRAY_BUFFER o => (fst (fst b), o, snd b)
  | BindBuffer ELEMENT_ARRAY_BUFFER o => (fst (fst b), snd (fst b), o)
  | _ => b
  end.

(** Each call of a list together with what is bound when it is issued. *)
Fixpoint annotate
    (b : option WebGLVertexArrayObject * option WebGLBuffer * option WebGLBuffer)
    (cs : list Call)
  : list ((option WebGLVertexArrayObject * option WebGLBuffer * option WebGLBuffer)
          * Call) :=
  match cs with
  | [] => []
  | c :: cs' => (b, c) :: annotate (rebind b c) cs'
  end.

Definition rebind_all
    (b : option WebGLVertexArrayObject * option WebGLBuffer * option WebGLBuffer)
    (cs : list Call) :=
  fold_left rebind cs b.

End Context.
Arguments Call : clear implicits.
Arguments State : clear implicits.
Arguments M : clear implicits.

End GL.

Declare Scope gl_scope.
Delimit Scope gl_scope with gl.
Notation "x <- m ;; k" := (GL.bind m (fun x => k))
  (at level 100, m at next level, right associativity) : gl_scope.
Notation "m ;; k" := (GL.bind m (fun _ => k))
  (at level 100, right associativity) : gl_scope.

Local Open Scope gl_scope.

(** ** class Shape *)

Module Shape.
Import GL.

Section Shape.
Context {num : Type} `{JSNumber num}.

(** The properties of a [Shape] object. *)
Record t := {
  shader : Shader;
  vertices : list num;
  vertices_buffer : option WebGLBuffer;
  indices : list Z;
  index_buffer : option WebGLBuffer;
  color : list num;
  draw_mode : DrawMode;
  num_components : Z;
  num_elements : Z;
  vertex_array_object : option WebGLVertexArrayObject;
}.

Definition set_vertices_buffer (b : option WebGLBuffer) (this : t) : t :=
  {| shader := shader this; vertices := vertices this; vertices_buffer := b;
     indices := indices this; index_buffer := index_buffer this;
     color := color this; draw_mode := draw_mode this;
     num_components := num_components this; num_elements := num_elements this;
     vertex_array_object := vertex_array_object this |}.

Definition set_index_buffer (b : option WebGLBuffer) (this : t) : t :=
  {| shader := shader this; vertices := vertices this;
     vertices_buffer := vertices_buffer this;
     indices := indices this; index_buffer := b;
     color := color this; draw_mode := draw_mode this;
     num_components := num_components this; num_elements := num_elements this;
     vertex_array_object := vertex_array_object this |}.

Definition set_vertex_array_object (v : option WebGLVertexArrayObject) (this : t) : t :=
  {| shader := shader this; vertices := vertices this;
     vertices_buffer := vertices_buffer this;
     indices := indices this; index_buffer := index_buffer this;
     color := color this; draw_mode := draw_mode this;
     num_components := num_components this; num_elements := num_elements this;
     vertex_array_object := v |}.

(** [createVAO( gl, shader )] *)
Definition createVAO (this : t) (shader : Shader) : M num t :=
  vao <- createVertexArray ;;
  let this := set_vertex_array_object (Some vao) this in
  bindVertexArray (vertex_array_object this) ;;
  positionAttributeLocation <- getAttribLocation (program shader) "a_position" ;;
  enableVertexAttribArray positionAttributeLocation ;;
  bindBuffer ARRAY_BUFFER (vertices_buffer this) ;;
  vertexAttribPointer positionAttributeLocation (num_components this) FLOAT false 0 0 ;;
  bindBuffer ARRAY_BUFFER None ;;
  bindVertexArray None ;;
  ret this.

(** [createVBO( gl )] *)
Definition createVBO (this : t) : M num t :=
  b <- createBuffer ;;
  let this := set_vertices_buffer (Some b) this in
  bindBuffer ARRAY_BUFFER (vertices_buffer this) ;;
  bufferData ARRAY_BUFFER (new_Float32Array (vertices this)) STATIC_DRAW ;;
  bindBuffer ARRAY_BUFFER None ;;
  ret this.

(** [createIBO( gl )] *)
Definition createIBO (this : t) : M num t :=
  b <- createBuffer ;;
  let this := set_index_buffer (Some b) this in
  bindBuffer ELEMENT_ARRAY_BUFFER (index_buffer this) ;;
  bufferData ELEMENT_ARRAY_BUFFER (new_Uint16Array (indices this)) STATIC_DRAW ;;
  bindBuffer ELEMENT_ARRAY_BUFFER None ;;
  ret this.

(** [constructor( gl, shader, vertices, indices, color, draw_mode, num_elements )].
    The object starts with the properties the constructor assigns from its
    arguments and with [null] handles; the three set-up methods then fill the
    handles in, in the order of the source. *)
Definition constructor (shader : Shader) (vertices : list num) (indices : list Z)
    (color : list num) (draw_mode : DrawMode) (num_elements : Z) : M num t :=
  let this :=
    {| shader := shader; vertices := vertices; vertices_buffer := None;
       indices := indices; index_buffer := None;
       color := color; draw_mode := draw_mode;
       num_components := 2; num_elements := num_elements;
       vertex_array_object := None |} in
  this <- createVBO this ;;
  this <- createIBO this ;;
  createVAO this shader.

(** [render( gl )] *)
Definition render (this : t) : M num unit :=
  bindVertexArray (vertex_array_object this) ;;
  bindBuffer ELEMENT_ARRAY_BUFFER (index_buffer this) ;;
  colorUniformLocation <- getUniformLocation (program (shader this)) "u_color" ;;
  uniform3fv colorUniformLocation (color this) ;;
  drawElements (draw_mode this) (num_elements this) UNSIGNED_SHORT 0 ;;
  bindBuffer ELEMENT_ARRAY_BUFFER None ;;
  bindVertexArray None.

(** The invariant the specification gives for the data model: every index
    names a vertex, and the draw call reads no more indices than there are. *)
Definition index_in_range (this : t) (i : Z) : bool :=
  ((0 <=? i) && (i <? Z.of_nat (length (vertices this)) / 2))%Z.

Definition invariant (this : t) : bool :=
  forallb (index_in_range this) (indices this)
  && (num_elements this <=? Z.of_nat (length (indices this)))%Z.

(** The constraint the specification puts on the arguments of the
    constructor: vertex scalars in pairs, at least one index, a positive
    element count. The constructor does not evaluate it. *)
Definition valid_geometry (vertices : list num) (indices : list Z) (num_elements : Z) : bool :=
  Nat.even (length vertices) && negb (Nat.eqb (length indices) 0)
  && (0 <? num_elements)%Z.

(** The shape is on the context: its two buffers hold its vertices and its
    indices as the constructor uploaded them, and its vertex array object
    exists. *)
Definition uploaded (s : State num) (this : t) : Prop :=
  data_store s (vertices_buffer this) = Some (new_Float32Array (vertices this))
  /\ data_store s (index_buffer this) = Some (new_Uint16Array (indices this))
  /\ is_vertex_array s (vertex_array_object this) = true.

(** The three handles of a shape. *)
Definition handles (this : t)
  : option WebGLBuffer * option WebGLBuffer * option WebGLVertexArrayObject :=
  (vertices_buffer this, index_buffer this, vertex_array_object this).

End Shape.
Arguments t : clear implicits.

End Shape.

(** ** class Triangle extends Shape *)

Module Triangle.
Import GL.

Section Triangle.
Context {num : Type} `{JSNumber num} `{Host num}.

(** [constructor( gl, shader, position, color, sideLength )]; [position] is
    the two-element array [(position[0], position[1])]. *)
Definition constructor (shader : Shader) (position : num * num) (color : list num)
    (sideLength : num) : M num (Shape.t num) :=
  let cosangle := Math_cos (deg2rad (num_lit 30)) in
  let sinangle := Math_sin (deg2rad (num_lit 30)) in
  let vertices := [
    fst position; num_sub (snd position) sideLength;
    num_add (fst position) (num_mul sideLength cosangle);
      num_add (snd position) (num_mul sideLength sinangle);
    num_sub (fst position) (num_mul sideLength cosangle);
      num_add (snd position) (num_mul sideLength sinangle)
  ] in
  let indices := [0; 1; 2]%Z in
  Shape.constructor shader vertices indices color TRIANGLES (Z.of_nat (length indices)).

End Triangle.
End Triangle.

(** ** class WebGlApp *)

Module WebGlApp.
Import GL.

Section WebGlApp.
Context {num : Type} `{JSNumber num} `{Host num}.

Record t := { shapes : list (Shape.t num) }.

(** [constructor()] *)
Definition constructor : t := {| shapes := [] |}.

(** [setViewport( gl, width, height )] *)
Definition setViewport (width height : Z) : M num unit :=
  viewport 0 0 width height.

(** [clearCanvas( gl )]; [color[i]] is [undefined] ([None]) past the end of
    the array [hex2rgb] returned. *)
Definition clearCanvas : M num unit :=
  let color := hex2rgb "#022851" in
  clearColor (color !! 0%nat) (color !! 1%nat) (color !! 2%nat) (Some (num_lit 1)) ;;
  clear COLOR_BUFFER_BIT.

(** [addTriangle( gl, shader, position, sideLength )] *)
Definition addTriangle (this : t) (shader : Shader) (position : num * num)
    (sideLength : num) : M num t :=
  let color := hex2rgb "#FFBF00" in
  triangle <- Triangle.constructor shader position color sideLength ;;
  ret {| shapes := shapes this ++ [triangle] |}.

(** [clearShapes()] *)
Definition clearShapes (this : t) : t := {| shapes := [] |}.

(** [render( gl, canvas_width, canvas_height )] *)
Definition render (this : t) (canvas_width canvas_height : Z) : M num unit :=
  setViewport canvas_width canvas_height ;;
  clearCanvas ;;
  for_of (shapes this) Shape.render.

End WebGlApp.
Arguments t : clear implicits.

End WebGlApp.

(** ** The program as a sequence of operations on one context *)

Module Program.
Import GL.

Section Program.
Context {num : Type} `{JSNumber num} `{Host num}.

(** The operations a caller performs on a [WebGlApp]. *)
Inductive Op :=
| AddTriangle (shader : Shader) (position : num * num) (sideLength : num)
| ClearShapes
| Render (canvas_width canvas_height : Z).

Definition step (app : WebGlApp.t num) (op : Op) : M num (WebGlApp.t num) :=
  match op with
  | AddTriangle shader position sideLength =>
      WebGlApp.addTriangle app shader position sideLength
  | ClearShapes => ret (WebGlApp.clearShapes app)
  | Render w h => WebGlApp.render app w h ;; ret app
  end.

Fixpoint run (app : WebGlApp.t num) (ops : list Op) : M num (WebGlApp.t num) :=
  match ops with
  | [] => ret app
  | op :: ops' => app' <- step app op ;; run app' ops'
  end.

(** A request to add a triangle, the operation it stands for, and the part
    of the resulting shape that does not depend on the context it is created
    on. *)
Definition request_op (r : Shader * (num * num) * num) : Op :=
  let '(shader, position, sideLength) := r in
  AddTriangle shader position sideLength.

Definition geometry (t : Shape.t num) : Shader * list num * list Z * list num :=
  (Shape.shader t, Shape.vertices t, Shape.indices t, Shape.color t).

Definition request_geometry (r : Shader * (num * num) * num)
  : Shader * list num * list Z * list num :=
  let '(shader, position, sideLength) := r in
  geometry (result (Triangle.constructor shader position (hex2rgb "#FFBF00") sideLength fresh)).

(** The number of shapes after a list of operations, from their number
    before it. *)
Fixpoint shape_count (n : nat) (ops : list Op) : nat :=
  match ops with
  | [] => n
  | AddTriangle _ _ _ :: ops' => shape_count (S n) ops'
  | ClearShapes :: ops' => shape_count 0 ops'
  | Render _ _ :: ops' => shape_count n ops'
  end.

Definition is_add (op : Op) : bool :=
  match op with AddTriangle _ _ _ => true | _ => false end.

(** The shapes of a list hold objects of their own: each one a vertex buffer
    [k], the index buffer [k + 1] and a vertex array object [v], among the
    first [nb] buffers and [nv] vertex array objects of a context, and the
    shapes later in the list hold later ones. *)
Definition separated (nb nv : nat) (scene : list (Shape.t num)) : Prop :=
  forall i a, scene !! i = Some a ->
    exists k v,
      Shape.handles a = (Some k, Some (S k), Some v) /\ (S k < nb)%nat /\ (v < nv)%nat
      /\ forall j b, (i < j)%nat -> scene !! j = Some b ->
           exists k' v',
             Shape.handles b = (Some k', Some (S k'), Some v')
             /\ (S k < k')%nat /\ (v < v')%nat.

End Program.
End Program.

(** ** Geometry of a vertex list *)

Module Geometry.
Section Geometry.
Context {num : Type} `{JSNumber num}.

(** The [i]-th point of a flat list of (x, y) pairs. *)
Definition point (vs : list num) (i : nat) : option (num * num) :=
  match vs !! (2 * i)%nat, vs !! (2 * i + 1)%nat with
  | Some x, Some y => Some (x, y)
  | _, _ => None
  end.

(** Squared distance between two points. *)
Definition dist2 (p q : num * num) : num :=
  num_add (num_mul (num_sub (fst p) (fst q)) (num_sub (fst p) (fst q)))
          (num_mul (num_sub (snd p) (snd q)) (num_sub (snd p) (snd q))).

(** Twice the signed area of the triangle [a], [b], [c] (positive when the
    three points turn counter-clockwise). *)
Definition signed_area2 (a b c : num * num) : num :=
  num_sub (num_mul (num_sub (fst b) (fst a)) (num_sub (snd c) (snd a)))
          (num_mul (num_sub (fst c) (fst a)) (num_sub (snd b) (snd a))).

End Geometry.
End Geometry.

(** ** The two number systems *)

(** Modelled from the spec: the colour and angle conversion helpers of
    [./js/utils/utils.js] are named by the specification as external
    collaborators and are not part of the sources. The program is embedded
    over any [Host]; the definitions below are the conventional ones (a
    [#RRGGBB] string to three components in [0,1], degrees to radians) and
    serve to run the program on concrete inputs. *)
Module Utils.
Section Utils.
Context {num : Type} `{JSNumber num}.

Definition hex_digit (a : Ascii.ascii) : Z :=
  let n := Z.of_nat (Ascii.nat_of_ascii a) in
  if ((48 <=? n) && (n <=? 57))%Z then n - 48
  else if ((65 <=? n) && (n <=? 70))%Z then n - 55
  else if ((97 <=? n) && (n <=? 102))%Z then n - 87
  else 0.

Definition hex_byte (a b : Ascii.ascii) : num :=
  num_div (num_lit (16 * hex_digit a + hex_digit b)) (num_lit 255).

Definition hex2rgb (s : string) : list num :=
  match s with
  | String _ (String r1 (String r2 (String g1 (String g2 (String b1 (String b2 _)))))) =>
      [hex_byte r1 r2; hex_byte g1 g2; hex_byte b1 b2]
  | _ => []
  end.

Definition deg2rad (pi : num) (deg : num) : num :=
  num_div (num_mul deg pi) (num_lit 180).

End Utils.
End Utils.

(** *** IEEE binary64: the numbers of the running program *)

Module Float64.

Definition of_Z (z : Z) : float := SF2Prim (SpecFloat.binary_normalize 53 1024 z 0 false).

(** Rounding to binary32 and back. *)
Definition fround (x : float) : float :=
  match Prim2SF x with
  | S754_finite s m e =>
      SF2Prim (SpecFloat.binary_normalize 24 128 (if s then Z.neg m else Z.pos m) e s)
  | _ => x
  end.

#[global] Instance number : JSNumber float := {|
  num_add := PrimFloat.add;
  num_sub := PrimFloat.sub;
  num_mul := PrimFloat.mul;
  num_div := PrimFloat.div;
  num_lit := of_Z;
  num_fround := fround;
|}.

Definition PI : float := 0x1.921fb54442d18p+1%float.

(** [Math.cos] and [Math.sin] are implementation-approximated. This host
    sums the Taylor series of the exact value of its argument in fixed-point
    arithmetic with 256 fractional bits and rounds the sum once to binary64.
    It covers the arguments below 16 in magnitude, where the sum is the
    correctly rounded sine or cosine up to the rare near-tie; at the angle
    the program passes, [deg2rad(30)], it gives 0.8660254037844387 and
    0.49999999999999994. Larger arguments, which the program never passes,
    are outside its range and give NaN. *)
Definition fraction_bits : Z := 256.

(** The argument as a multiple of 2^-256, when it has an exact one below 16. *)
Definition fixed (x : float) : option Z :=
  match Prim2SF x with
  | S754_zero _ => Some 0%Z
  | S754_finite s m e =>
      if ((e + fraction_bits <? 0) || (4 <? e + 53))%Z then None
      else Some ((if s then Z.neg m else Z.pos m) * 2 ^ (e + fraction_bits))%Z
  | _ => None
  end.

(** [n] terms of an alternating series whose term after [term] is
    [- term * x2 / ((k + 1) * (k + 2))]. *)
Fixpoint series (n : nat) (k : Z) (term x2 : Z) : Z :=
  match n with
  | O => 0%Z
  | S n' =>
      (term + series n' (k + 2)
                (- (term * x2 / 2 ^ fraction_bits) / ((k + 1) * (k + 2))) x2)%Z
  end.

Definition round (v : Z) : float :=
  SF2Prim (SpecFloat.binary_normalize 53 1024 v (- fraction_bits) false).

Definition cos (x : float) : float :=
  match fixed x with
  | Some X => round (series 48 0 (2 ^ fraction_bits) (X * X / 2 ^ fraction_bits))%Z
  | None => if PrimFloat.ltb (PrimFloat.abs x) 1 then 1%float else nan
  end.

Definition sin (x : float) : float :=
  match fixed x with
  | Some X =>
      if (X =? 0)%Z then x else round (series 48 1 X (X * X / 2 ^ fraction_bits))%Z
  | None => if PrimFloat.ltb (PrimFloat.abs x) 1 then x else nan
  end.

#[global] Instance host : Host float := {|
  Math_cos := cos;
  Math_sin := sin;
  deg2rad := Utils.deg2rad PI;
  hex2rgb := Utils.hex2rgb;
|}.

End Float64.

(** *** Real numbers: exact arithmetic *)

Module Exact.

#[global] Instance number : JSNumber R := {|
  num_add := Rplus;
  num_sub := Rminus;
  num_mul := Rmult;
  num_div := Rdiv;
  num_lit := IZR;
  num_fround := fun x => x;
|}.

#[global] Instance host : Host R := {|
  Math_cos := Rtrigo_def.cos;
  Math_sin := Rtrigo_def.sin;
  deg2rad := Utils.deg2rad Rtrigo1.PI;
  hex2rgb := Utils.hex2rgb;
|}.

End Exact.

(** * Properties *)

Import GL.
Import Program.

(** ** Running computations *)

Section Monad.
Context {num : Type}.

Lemma bind_calls {A B} (m : M num A) (k : A -> M num B) (s : State num) :
  calls (bind m k s) = calls (m s) ++ calls (k (result (m s)) (state (m s)) ).
Proof.
  unfold bind, calls, result, state.
  destruct (m s) as [[a s1] c1]; simpl.
  destruct (k a s1) as [[b s2] c2]; reflexivity.
Qed.

Lemma bind_state {A B} (m : M num A) (k : A -> M num B) (s : State num) :
  state (bind m k s) = state (k (result (m s)) (state (m s))).
Proof.
  unfold bind, result, state.
  destruct (m s) as [[a s1] c1]; simpl.
  destruct (k a s1) as [[b s2] c2]; reflexivity.
Qed.

Lemma bind_result {A B} (m : M num A) (k : A -> M num B) (s : State num) :
  result (bind m k s) = result (k (result (m s)) (state (m s))).
Proof.
  unfold bind, result, state.
  destruct (m s) as [[a s1] c1]; simpl.
  destruct (k a s1) as [[b s2] c2]; reflexivity.
Qed.

(** A loop whose body issues calls that do not depend on the state of the
    context issues them once per element, in the order of the list. *)
Lemma for_of_calls {A} (body : A -> M num unit) (f : A -> list (Call num)) :
  (forall x s, calls (body x s) = f x) ->
  forall l s, calls (for_of l body s) = flat_map f l.
Proof.
  intros Hbody l; induction l as [|x l IH]; intros s; cbn [for_of flat_map].
  - reflexivity.
  - rewrite bind_calls, Hbody, IH. reflexivity.
Qed.

Lemma filter_flat_map_one {A} (p : Call num -> bool) (f : A -> list (Call num))
    (g : A -> Call num) :
  (forall x, List.filter p (f x) = [g x]) ->
  forall l, List.filter p (flat_map f l) = map g l.
Proof.
  intros Hone l; induction l as [|x l IH]; cbn [flat_map map].
  - reflexivity.
  - rewrite List.filter_app, Hone, IH. reflexivity.
Qed.

Lemma filter_flat_map_none {A} (p : Call num -> bool) (f : A -> list (Call num)) :
  (forall x, List.filter p (f x) = []) ->
  forall l, List.filter p (flat_map f l) = [].
Proof.
  intros Hnone l; induction l as [|x l IH]; cbn [flat_map].
  - reflexivity.
  - rewrite List.filter_app, Hnone, IH. reflexivity.
Qed.

(** *** Binds and unbinds in a list of calls *)

Lemma binds_paired_app (a b : list (Call num)) :
  binds_paired a = true -> binds_paired b = true -> binds_paired (a ++ b) = true.
Proof.
  intros Ha Hb; induction a as [|c a IH]; cbn [List.app binds_paired] in *.
  - exact Hb.
  - apply andb_true_iff in Ha as [Hc Ha]. apply andb_true_iff; split.
    + destruct (bind_of c) as [[p [o|]]|]; try reflexivity.
      rewrite existsb_app, Hc. reflexivity.
    + apply IH, Ha.
Qed.

Lemma left_bound_app (p : BindPoint) (before : option nat) (a b : list (Call num)) :
  left_bound p before (a ++ b) = left_bound p (left_bound p before a) b.
Proof.
  revert before; induction a as [|c a IH]; intros before; cbn [List.app left_bound].
  - reflexivity.
  - destruct (bind_of c) as [[q o]|]; apply IH.
Qed.

Lemma binds_paired_flat_map {A} (f : A -> list (Call num)) (l : list A) :
  (forall x, binds_paired (f x) = true) -> binds_paired (flat_map f l) = true.
Proof.
  intros Hf; induction l as [|x l IH]; cbn [flat_map].
  - reflexivity.
  - apply binds_paired_app; [apply Hf | exact IH].
Qed.

Lemma left_bound_flat_map {A} (p : BindPoint) (f : A -> list (Call num)) (l : list A) :
  (forall x, left_bound p None (f x) = None) -> left_bound p None (flat_map f l) = None.
Proof.
  intros Hf; induction l as [|x l IH]; cbn [flat_map].
  - reflexivity.
  - rewrite left_bound_app, Hf. exact IH.
Qed.

End Monad.

Section Properties.
Context {num : Type} `{JSNumber num} `{Host num}.

(** ** The calls of one shape and of one frame *)

(** The calls [Shape.render] issues: they depend on the shape alone. *)
Lemma Shape_render_calls (this : Shape.t num) (s : State num) :
  calls (Shape.render this s) =
    [ BindVertexArray (Shape.vertex_array_object this);
      BindBuffer ELEMENT_ARRAY_BUFFER (Shape.index_buffer this);
      GetUniformLocation (program (Shape.shader this)) "u_color"
        (uniforms (program (Shape.shader this)) !! "u_color");
      Uniform3fv (uniforms (program (Shape.shader this)) !! "u_color") (Shape.color this);
      DrawElements (Shape.draw_mode this) (Shape.num_elements this) UNSIGNED_SHORT 0;
      BindBuffer ELEMENT_ARRAY_BUFFER None;
      BindVertexArray None ].
Proof. reflexivity. Qed.

Lemma WebGlApp_render_calls (app : WebGlApp.t num) (w h : Z) (s : State num) :
  calls (WebGlApp.render app w h s) =
    Viewport 0 0 w h
    :: ClearColor (hex2rgb "#022851" !! 0%nat) (hex2rgb "#022851" !! 1%nat)
                  (hex2rgb "#022851" !! 2%nat) (Some (num_lit 1))
    :: Clear COLOR_BUFFER_BIT
    :: flat_map (fun shape => calls (Shape.render shape fresh)) (WebGlApp.shapes app).
Proof.
  unfold WebGlApp.render. rewrite !bind_calls.
  rewrite (for_of_calls Shape.render (fun shape => calls (Shape.render shape fresh))).
  - reflexivity.
  - intros x s'. reflexivity.
Qed.

(** C1. One frame is: the viewport set to (0, 0, width, height), the clear
    to the fixed background colour ([clearColor] then [clear]), then the calls
    of every stored shape, one draw each, in the order of [shapes]. With no
    shape stored (a new scene, or after [clearShapes]) the frame is the
    viewport call and the clear alone. After
    [addTriangle(pos = (0,0), sideLength = 1)], [render(800, 600)] has one
    viewport call (0,0,800,600), one clear and one draw of TRIANGLES with
    3 elements. *)
Theorem render_emits_one_frame (app : WebGlApp.t num) (w h : Z) (s : State num)
    (shader : Shader) :
  let background :=
    ClearColor (hex2rgb "#022851" !! 0%nat) (hex2rgb "#022851" !! 1%nat)
               (hex2rgb "#022851" !! 2%nat) (Some (num_lit 1)) in
  let frame := calls (WebGlApp.render app w h s) in
  frame =
    Viewport 0 0 w h :: background :: Clear COLOR_BUFFER_BIT
    :: flat_map (fun shape =>
         [ BindVertexArray (Shape.vertex_array_object shape);
           BindBuffer ELEMENT_ARRAY_BUFFER (Shape.index_buffer shape);
           GetUniformLocation (program (Shape.shader shape)) "u_color"
             (uniforms (program (Shape.shader shape)) !! "u_color");
           Uniform3fv (uniforms (program (Shape.shader shape)) !! "u_color")
             (Shape.color shape);
           DrawElements (Shape.draw_mode shape) (Shape.num_elements shape)
             UNSIGNED_SHORT 0;
           BindBuffer ELEMENT_ARRAY_BUFFER None;
           BindVertexArray None ]) (WebGlApp.shapes app)
  /\ List.filter is_viewport frame = [Viewport 0 0 w h]
  /\ List.filter is_clearColor frame = [background]
  /\ List.filter is_clear frame = [Clear COLOR_BUFFER_BIT]
  /\ List.filter is_draw frame =
       map (fun shape => DrawElements (Shape.draw_mode shape) (Shape.num_elements shape)
                           UNSIGNED_SHORT 0) (WebGlApp.shapes app)
  /\ calls (WebGlApp.render WebGlApp.constructor w h s) =
       [Viewport 0 0 w h; background; Clear COLOR_BUFFER_BIT]
  /\ calls (WebGlApp.render (WebGlApp.clearShapes app) w h s) =
       [Viewport 0 0 w h; background; Clear COLOR_BUFFER_BIT]
  /\ (let added :=
        WebGlApp.addTriangle WebGlApp.constructor shader (num_lit 0, num_lit 0)
          (num_lit 1) s in
      let frame1 := calls (WebGlApp.render (result added) 800 600 (state added)) in
      List.filter is_viewport frame1 = [Viewport 0 0 800 600]
      /\ List.filter is_clearColor frame1 = [background]
      /\ List.filter is_clear frame1 = [Clear COLOR_BUFFER_BIT]
      /\ List.filter is_draw frame1 = [DrawElements TRIANGLES 3 UNSIGNED_SHORT 0]).
Proof.
  intros background frame.
  assert (Hframe : forall a w' h' s',
    calls (WebGlApp.render a w' h' s') =
      Viewport 0 0 w' h' :: background :: Clear COLOR_BUFFER_BIT
      :: flat_map (fun shape => calls (Shape.render shape fresh)) (WebGlApp.shapes a))
    by (intros; apply WebGlApp_render_calls).
  assert (Hdraw : forall l : list (Shape.t num),
    List.filter is_draw (flat_map (fun shape => calls (Shape.render shape fresh)) l) =
      map (fun shape => DrawElements (Shape.draw_mode shape) (Shape.num_elements shape)
                          UNSIGNED_SHORT 0) l)
    by (apply filter_flat_map_one; reflexivity).
  assert (Hview : forall l : list (Shape.t num),
    List.filter is_viewport (flat_map (fun shape => calls (Shape.render shape fresh)) l) = [])
    by (apply filter_flat_map_none; reflexivity).
  assert (Hclear : forall l : list (Shape.t num),
    List.filter is_clear (flat_map (fun shape => calls (Shape.render shape fresh)) l) = [])
    by (apply filter_flat_map_none; reflexivity).
  assert (Hcolor : forall l : list (Shape.t num),
    List.filter is_clearColor (flat_map (fun shape => calls (Shape.render shape fresh)) l) = [])
    by (apply filter_flat_map_none; reflexivity).
  subst frame. rewrite !Hframe.
  cbn [List.filter is_viewport is_clear is_clearColor is_draw background].
  rewrite Hdraw, Hview, Hclear, Hcolor.
  repeat split.
Qed.

(** ** Determinism of a frame *)

Lemma Shape_render_state (this : Shape.t num) (s : State num) :
  state (Shape.render this s) =
    set_vertex_array_binding None (set_binding ELEMENT_ARRAY_BUFFER None s).
Proof. reflexivity. Qed.

Lemma for_of_render_state (l : list (Shape.t num)) (s : State num) :
  state (for_of l Shape.render s) =
    match l with
    | [] => s
    | _ :: _ => set_vertex_array_binding None (set_binding ELEMENT_ARRAY_BUFFER None s)
    end.
Proof.
  revert s; induction l as [|x l IH]; intros s; cbn [for_of].
  - reflexivity.
  - rewrite bind_state, IH, Shape_render_state. destruct l; reflexivity.
Qed.

(** Setting the viewport that was just set changes nothing. *)
Lemma accepted_viewport_again (s s1 : State num) (x y w h : Z) :
  viewport_box s1 = accepted_viewport s x y w h ->
  max_viewport_dims s1 = max_viewport_dims s ->
  accepted_viewport s1 x y w h = accepted_viewport s x y w h.
Proof.
  intros Hbox Hmax. unfold accepted_viewport in *. rewrite Hmax.
  destruct ((w <? 0) || (h <? 0))%Z; [exact Hbox | reflexivity].
Qed.

Lemma WebGlApp_render_state (app : WebGlApp.t num) (w h : Z) (s : State num) :
  state (WebGlApp.render app w h s) =
    let cleared :=
      set_clear_value (option_map num_fround (hex2rgb "#022851" !! 0%nat),
                       option_map num_fround (hex2rgb "#022851" !! 1%nat),
                       option_map num_fround (hex2rgb "#022851" !! 2%nat),
                       Some (num_fround (num_lit 1)))
        (set_viewport_box (accepted_viewport s 0 0 w h) s) in
    match WebGlApp.shapes app with
    | [] => cleared
    | _ :: _ =>
        set_vertex_array_binding None (set_binding ELEMENT_ARRAY_BUFFER None cleared)
    end.
Proof.
  unfold WebGlApp.render. rewrite !bind_state, for_of_render_state. reflexivity.
Qed.

(** C8. Two renders in a row with the same arguments and no change to the
    scene in between issue the same calls in the same order; the second one
    also leaves the context in the state the first one left. *)
Theorem render_twice_same_calls (app : WebGlApp.t num) (w h : Z) (s : State num) :
  let first := WebGlApp.render app w h s in
  let second := WebGlApp.render app w h (state first) in
  calls second = calls first /\ state second = state first.
Proof.
  intros first second; subst first second; split.
  - rewrite !WebGlApp_render_calls. reflexivity.
  - rewrite !WebGlApp_render_state. cbv zeta.
    destruct (WebGlApp.shapes app);
      rewrite (accepted_viewport_again s) by reflexivity; reflexivity.
Qed.

(** ** The list of shapes *)

Lemma addTriangle_shapes (app : WebGlApp.t num) shader position sideLength (s : State num) :
  WebGlApp.shapes (result (WebGlApp.addTriangle app shader position sideLength s)) =
    WebGlApp.shapes app
    ++ [result (Triangle.constructor shader position (hex2rgb "#FFBF00") sideLength s)].
Proof. reflexivity. Qed.

Lemma Triangle_geometry shader position color sideLength (s s' : State num) :
  geometry (result (Triangle.constructor shader position color sideLength s)) =
  geometry (result (Triangle.constructor shader position color sideLength s')).
Proof. reflexivity. Qed.

Lemma Triangle_vertex_array shader position color sideLength (s : State num) :
  let made := Triangle.constructor shader position color sideLength s in
  Shape.vertex_array_object (result made) = Some (vertex_arrays s)
  /\ vertex_arrays (state made) = S (vertex_arrays s).
Proof. split; reflexivity. Qed.

Lemma run_requests (requests : list (Shader * (num * num) * num)) :
  forall (app : WebGlApp.t num) (s : State num),
    let final := Program.run app (map request_op requests) s in
    map geometry (WebGlApp.shapes (result final)) =
      map geometry (WebGlApp.shapes app) ++ map request_geometry requests
    /\ map Shape.vertex_array_object (WebGlApp.shapes (result final)) =
         map Shape.vertex_array_object (WebGlApp.shapes app)
         ++ map (fun i => Some (vertex_arrays s + i)%nat) (seq 0 (length requests)).
Proof.
  induction requests as [|[[shader position] sideLength] requests IH]; intros app s.
  - cbn. rewrite !app_nil_r. split; reflexivity.
  - cbn [map request_op Program.run]. cbv zeta. rewrite bind_result.
    cbn [Program.step].
    destruct (IH (result (WebGlApp.addTriangle app shader position sideLength s))
                 (state (WebGlApp.addTriangle app shader position sideLength s)))
      as [Hgeo Hvao].
    rewrite Hgeo, Hvao, addTriangle_shapes, !map_app. cbn [map length seq request_geometry].
    rewrite <- !app_assoc. cbn [List.app]. split.
    + do 2 f_equal.
    + do 2 f_equal.
      * destruct (Triangle_vertex_array shader position (hex2rgb "#FFBF00") sideLength s)
          as [-> _]. f_equal. lia.
      * rewrite <- seq_shift, map_map. apply map_ext. intros i.
        change (vertex_arrays (state (WebGlApp.addTriangle app shader position sideLength s)))
          with (S (vertex_arrays s)).
        f_equal. lia.
Qed.

(** C4. [addTriangle] appends: the scene has one more shape, the new one is
    last, and the shapes it already had keep their places; adding the
    triangles of a list of requests to a new scene gives as many shapes, in
    the order of the requests (their geometry and the vertex array handles,
    which the context hands out in increasing order, both show it); [render]
    issues the calls of the shapes, and so the draws, in the order of the
    list; and [clearShapes] leaves no shape. *)
Theorem addTriangle_append_only (app : WebGlApp.t num) (shader : Shader)
    (position : num * num) (sideLength : num)
    (requests : list (Shader * (num * num) * num)) (w h : Z) (s : State num) :
  let added := WebGlApp.addTriangle app shader position sideLength s in
  let final := Program.run WebGlApp.constructor (map request_op requests) s in
  WebGlApp.shapes (result added) =
    WebGlApp.shapes app
    ++ [result (Triangle.constructor shader position (hex2rgb "#FFBF00") sideLength s)]
  /\ length (WebGlApp.shapes (result added)) = S (length (WebGlApp.shapes app))
  /\ (forall i shape, WebGlApp.shapes app !! i = Some shape ->
        WebGlApp.shapes (result added) !! i = Some shape)
  /\ length (WebGlApp.shapes (result final)) = length requests
  /\ map geometry (WebGlApp.shapes (result final)) = map request_geometry requests
  /\ map Shape.vertex_array_object (WebGlApp.shapes (result final)) =
       map (fun i => Some (vertex_arrays s + i)%nat) (seq 0 (length requests))
  /\ calls (WebGlApp.render app w h s) =
       firstn 3 (calls (WebGlApp.render app w h s))
       ++ flat_map (fun shape => calls (Shape.render shape fresh)) (WebGlApp.shapes app)
  /\ List.filter is_draw (calls (WebGlApp.render app w h s)) =
       map (fun shape => DrawElements (Shape.draw_mode shape) (Shape.num_elements shape)
                           UNSIGNED_SHORT 0) (WebGlApp.shapes app)
  /\ WebGlApp.shapes (WebGlApp.clearShapes app) = []
  /\ length (WebGlApp.shapes (WebGlApp.clearShapes (result added))) = 0%nat.
Proof.
  intros added final.
  destruct (run_requests requests WebGlApp.constructor s) as [Hgeo Hvao].
  fold final in Hgeo, Hvao. cbn [WebGlApp.constructor WebGlApp.shapes map List.app] in Hgeo, Hvao.
  split; [apply addTriangle_shapes|].
  split; [subst added; rewrite addTriangle_shapes, length_app; cbn; lia|].
  split; [intros i shape Hi; subst added; rewrite addTriangle_shapes;
          apply lookup_app_l_Some; exact Hi|].
  split; [rewrite <- (length_map geometry), Hgeo; apply length_map|].
  split; [exact Hgeo|].
  split; [exact Hvao|].
  split; [rewrite WebGlApp_render_calls; reflexivity|].
  split; [|split; reflexivity].
  rewrite WebGlApp_render_calls. cbn [List.filter is_draw].
  apply filter_flat_map_one. reflexivity.
Qed.

(** ** The constructor of [Shape] *)

Lemma insert_snoc {A} (l : list A) (x y : A) : <[length l := x]> (l ++ [y]) = l ++ [x].
Proof.
  rewrite insert_app_r_alt by lia. rewrite Nat.sub_diag. reflexivity.
Qed.

Lemma createVBO_run (this : Shape.t num) (s : State num) :
  Shape.createVBO this s =
    (Shape.set_vertices_buffer (Some (length (buffers s))) this,
     set_binding ARRAY_BUFFER None
       (set_buffers (fun bs => bs ++ [Some (new_Float32Array (Shape.vertices this))]) s),
     [ CreateBuffer (length (buffers s));
       BindBuffer ARRAY_BUFFER (Some (length (buffers s)));
       BufferData ARRAY_BUFFER (new_Float32Array (Shape.vertices this)) STATIC_DRAW;
       BindBuffer ARRAY_BUFFER None ]).
Proof.
  unfold Shape.createVBO, bind, createBuffer, bindBuffer, bufferData, ret.
  cbn. unfold set_binding, set_buffers; cbn. rewrite insert_snoc. reflexivity.
Qed.

Lemma createIBO_run (this : Shape.t num) (s : State num) :
  Shape.createIBO this s =
    (Shape.set_index_buffer (Some (length (buffers s))) this,
     set_binding ELEMENT_ARRAY_BUFFER None
       (set_buffers (fun bs => bs ++ [Some (new_Uint16Array (Shape.indices this))]) s),
     [ CreateBuffer (length (buffers s));
       BindBuffer ELEMENT_ARRAY_BUFFER (Some (length (buffers s)));
       BufferData ELEMENT_ARRAY_BUFFER (new_Uint16Array (Shape.indices this)) STATIC_DRAW;
       BindBuffer ELEMENT_ARRAY_BUFFER None ]).
Proof.
  unfold Shape.createIBO, bind, createBuffer, bindBuffer, bufferData, ret.
  cbn. unfold set_binding, set_buffers; cbn. rewrite insert_snoc. reflexivity.
Qed.

(** What the constructor leaves on the context: two more buffers, holding
    the vertices as 32-bit floats and the indices as 16-bit unsigned
    integers, and one more vertex array object; the shape holds their
    handles. *)
Lemma constructor_objects shader vertices indices color draw_mode num_elements
    (s : State num) :
  let made := Shape.constructor shader vertices indices color draw_mode num_elements s in
  buffers (state made) =
    buffers s ++ [Some (new_Float32Array vertices); Some (new_Uint16Array indices)]
  /\ vertex_arrays (state made) = S (vertex_arrays s)
  /\ Shape.vertices_buffer (result made) = Some (length (buffers s))
  /\ Shape.index_buffer (result made) = Some (S (length (buffers s)))
  /\ Shape.vertex_array_object (result made) = Some (vertex_arrays s).
Proof.
  intros made; subst made. unfold Shape.constructor.
  rewrite !bind_state, !bind_result, createVBO_run.
  cbn [result state fst snd]. rewrite createIBO_run. cbn [result state fst snd].
  cbn. rewrite length_app, <- app_assoc. cbn.
  repeat split. f_equal. lia.
Qed.

Lemma constructor_calls shader vertices indices color draw_mode num_elements
    (s : State num) :
  calls (Shape.constructor shader vertices indices color draw_mode num_elements s) =
    [ CreateBuffer (length (buffers s));
      BindBuffer ARRAY_BUFFER (Some (length (buffers s)));
      BufferData ARRAY_BUFFER (new_Float32Array vertices) STATIC_DRAW;
      BindBuffer ARRAY_BUFFER None;
      CreateBuffer (S (length (buffers s)));
      BindBuffer ELEMENT_ARRAY_BUFFER (Some (S (length (buffers s))));
      BufferData ELEMENT_ARRAY_BUFFER (new_Uint16Array indices) STATIC_DRAW;
      BindBuffer ELEMENT_ARRAY_BUFFER None;
      CreateVertexArray (vertex_arrays s);
      BindVertexArray (Some (vertex_arrays s));
      GetAttribLocation (program shader) "a_position"
        (default (-1)%Z (attributes (program shader) !! "a_position"));
      EnableVertexAttribArray (default (-1)%Z (attributes (program shader) !! "a_position"));
      BindBuffer ARRAY_BUFFER (Some (length (buffers s)));
      VertexAttribPointer (default (-1)%Z (attributes (program shader) !! "a_position"))
        2 FLOAT false 0 0;
      BindBuffer ARRAY_BUFFER None;
      BindVertexArray None ].
Proof.
  unfold Shape.constructor.
  rewrite ?bind_calls, ?bind_state, ?bind_result, createVBO_run.
  cbn [result state calls fst snd]. rewrite createIBO_run. cbn [result state calls fst snd].
  cbn. rewrite length_app. cbn. rewrite Nat.add_1_r. reflexivity.
Qed.

Lemma constructor_grows_context shader vertices indices color draw_mode
    num_elements (s : State num) :
  let made := Shape.constructor shader vertices indices color draw_mode num_elements s in
  buffers (state made) =
    buffers s ++ [Some (new_Float32Array vertices); Some (new_Uint16Array indices)]
  /\ vertex_arrays (state made) = S (vertex_arrays s).
Proof.
  intros made.
  destruct (constructor_objects shader vertices indices color draw_mode num_elements s)
    as (Hbuf & Hvao & _). split; assumption.
Qed.

(** The vertex list of a triangle in any number system: the three vertices
    (px, py - sideLength), (px + sideLength * c, py + sideLength * s) and
    (px - sideLength * c, py + sideLength * s), in this order, where c and s
    are [Math.cos] and [Math.sin] of [deg2rad(30)]; its indices are 0, 1, 2,
    and it is drawn as TRIANGLES with 3 elements. *)
Theorem Triangle_constructor_vertices (shader : Shader) (px py : num) (color : list num)
    (sideLength : num) (s : State num) :
  let cosangle := Math_cos (deg2rad (num_lit 30)) in
  let sinangle := Math_sin (deg2rad (num_lit 30)) in
  let triangle := result (Triangle.constructor shader (px, py) color sideLength s) in
  Shape.vertices triangle =
    [ px; num_sub py sideLength;
      num_add px (num_mul sideLength cosangle); num_add py (num_mul sideLength sinangle);
      num_sub px (num_mul sideLength cosangle); num_add py (num_mul sideLength sinangle) ]
  /\ length (Shape.vertices triangle) = 6%nat
  /\ Geometry.point (Shape.vertices triangle) 0 = Some (px, num_sub py sideLength)
  /\ Geometry.point (Shape.vertices triangle) 1 =
       Some (num_add px (num_mul sideLength cosangle),
             num_add py (num_mul sideLength sinangle))
  /\ Geometry.point (Shape.vertices triangle) 2 =
       Some (num_sub px (num_mul sideLength cosangle),
             num_add py (num_mul sideLength sinangle))
  /\ Shape.indices triangle = [0; 1; 2]%Z
  /\ Shape.color triangle = color
  /\ Shape.draw_mode triangle = TRIANGLES
  /\ Shape.num_elements triangle = 3%Z.
Proof. repeat split. Qed.

(** C5, as the code has it. The constructor of [Shape] checks nothing: for
    every input, whatever the length of the vertices, the indices or the
    element count, it returns a shape that holds the input as given, and it
    creates exactly three objects on the context (the vertex buffer, the
    index buffer and the vertex array object) whose handles the shape holds. *)
Theorem Shape_constructor_accepts_any_input (shader : Shader) (vertices : list num)
    (indices : list Z) (color : list num) (draw_mode : DrawMode) (num_elements : Z)
    (s : State num) :
  let made := Shape.constructor shader vertices indices color draw_mode num_elements s in
  (Shape.vertices (result made) = vertices
   /\ Shape.indices (result made) = indices
   /\ Shape.num_elements (result made) = num_elements
   /\ Shape.draw_mode (result made) = draw_mode
   /\ Shape.color (result made) = color
   /\ Shape.shader (result made) = shader)
  /\ (Shape.vertices_buffer (result made) = Some (length (buffers s))
      /\ Shape.index_buffer (result made) = Some (S (length (buffers s)))
      /\ Shape.vertex_array_object (result made) = Some (vertex_arrays s))
  /\ resources (state made) = (resources s + 3)%nat
  /\ List.filter is_create (calls made) =
       [ CreateBuffer (length (buffers s)); CreateBuffer (S (length (buffers s)));
         CreateVertexArray (vertex_arrays s) ].
Proof.
  intros made.
  destruct (constructor_objects shader vertices indices color draw_mode num_elements s)
    as (Hbuf & Hvao & Hvb & Hib & Hva).
  fold made in Hbuf, Hvao, Hvb, Hib, Hva.
  split; [repeat split|].
  split; [auto|].
  split.
  - unfold resources. rewrite Hbuf, Hvao, length_app. cbn. lia.
  - subst made. rewrite constructor_calls. reflexivity.
Qed.

(** C6, as the code has it. [clearShapes] leaves the scene with no shape; it
    issues no call on the context and leaves it as it was, so every object
    that exists on the context before the clear exists after it. No
    operation of the program destroys an object: the number of objects on
    the context never goes down. *)
Theorem clearShapes_empties_and_releases_nothing (app : WebGlApp.t num) (op : Op)
    (s : State num) :
  WebGlApp.shapes (WebGlApp.clearShapes app) = []
  /\ step app ClearShapes s = (WebGlApp.clearShapes app, s, [])
  /\ resources (state (step app ClearShapes s)) = resources s
  /\ buffers (state (step app ClearShapes s)) = buffers s
  /\ (resources s <= resources (state (step app op s)))%nat.
Proof.
  repeat split.
  destruct op as [shader position sideLength | | w h]; cbn [step].
  - unfold WebGlApp.addTriangle. rewrite bind_state. cbn [ret state fst snd].
    unfold Triangle.constructor.
    match goal with |- context [Shape.constructor ?a ?b ?c ?d ?e ?f s] =>
      destruct (constructor_grows_context a b c d e f s) as [Hb Hv]
    end.
    unfold resources. rewrite Hb, Hv, length_app. cbn. lia.
  - unfold resources; cbn. lia.
  - rewrite bind_state. cbn [ret state fst snd].
    rewrite WebGlApp_render_state. unfold resources.
    destruct (WebGlApp.shapes app); cbn; lia.
Qed.

(** ** The invariant of the data model *)

Lemma Triangle_invariant shader position color sideLength (s : State num) :
  Shape.invariant (result (Triangle.constructor shader position color sideLength s)) = true.
Proof. reflexivity. Qed.

(** Every step keeps the shapes of the scene that satisfy the invariant
    satisfying it: it adds a triangle, removes all shapes or keeps the list. *)
Lemma step_invariant (app : WebGlApp.t num) (op : Op) (s : State num) :
  Forall (fun shape => Shape.invariant shape = true) (WebGlApp.shapes app) ->
  Forall (fun shape => Shape.invariant shape = true)
         (WebGlApp.shapes (result (step app op s))).
Proof.
  intros Happ. destruct op as [shader position sideLength | | w h]; cbn [step].
  - rewrite addTriangle_shapes. apply Forall_app; split; [exact Happ|].
    constructor; [apply Triangle_invariant | constructor].
  - constructor.
  - rewrite bind_result. exact Happ.
Qed.

Lemma run_invariant (ops : list Op) :
  forall (app : WebGlApp.t num) (s : State num),
    Forall (fun shape => Shape.invariant shape = true) (WebGlApp.shapes app) ->
    Forall (fun shape => Shape.invariant shape = true)
           (WebGlApp.shapes (result (run app ops s))).
Proof.
  induction ops as [|op ops IH]; intros app s Happ; cbn [run].
  - exact Happ.
  - rewrite bind_result. apply IH, step_invariant, Happ.
Qed.

(** C9, as the code has it. Every shape the [Triangle] constructor makes has
    indices 0, 1, 2, six vertex scalars and element count 3, and so
    satisfies the invariant: each index is below length(vertices)/2 and the
    element count is at most length(indices). Every shape of a scene reached
    from a new [WebGlApp] by any operations is such a triangle and
    satisfies it, and an operation leaves the shapes it keeps as they were:
    [render] keeps the list, [addTriangle] keeps it as a prefix. *)
Theorem Triangle_shapes_satisfy_invariant (shader : Shader) (position : num * num)
    (color : list num) (sideLength : num) (ops : list Op) (app : WebGlApp.t num)
    (w h : Z) (s : State num) :
  let triangle := result (Triangle.constructor shader position color sideLength s) in
  (Shape.indices triangle = [0; 1; 2]%Z
   /\ length (Shape.vertices triangle) = 6%nat
   /\ Shape.num_elements triangle = 3%Z)
  /\ Shape.invariant triangle = true
  /\ Forall (fun shape => Shape.invariant shape = true)
            (WebGlApp.shapes (result (run WebGlApp.constructor ops s)))
  /\ result (step app (Render w h) s) = app
  /\ firstn (length (WebGlApp.shapes app))
       (WebGlApp.shapes (result (step app (AddTriangle shader position sideLength) s))) =
     WebGlApp.shapes app.
Proof.
  intros triangle.
  split; [repeat split|].
  split; [apply Triangle_invariant|].
  split; [apply run_invariant; constructor|].
  split.
  - cbn [step]. rewrite bind_result. reflexivity.
  - cbn [step]. rewrite addTriangle_shapes.
    rewrite firstn_app, Nat.sub_diag, firstn_all. cbn. apply app_nil_r.
Qed.

(** ** The index buffer *)

Lemma ToUint16_fixed (i : Z) : ToUint16 i = i <-> (0 <= i < 65536)%Z.
Proof.
  unfold ToUint16; split.
  - intros Hi. rewrite <- Hi. apply Z.mod_pos_bound. lia.
  - intros Hi. apply Z.mod_small, Hi.
Qed.

Lemma map_ToUint16_fixed (indices : list Z) :
  map ToUint16 indices = indices <-> Forall (fun i => (0 <= i < 65536)%Z) indices.
Proof.
  induction indices as [|i indices IH]; cbn [map].
  - split; [constructor | reflexivity].
  - split.
    + intros Heq. injection Heq as Hi Hrest.
      constructor; [apply ToUint16_fixed, Hi | apply IH, Hrest].
    + intros Hall. inversion Hall as [|? ? Hi Hrest]; subst.
      f_equal; [apply ToUint16_fixed, Hi | apply IH, Hrest].
Qed.

(** C10. The index buffer of a shape holds the indices as a [Uint16Array],
    each reduced modulo 2^16, and the draw call reads them as
    UNSIGNED_SHORT. The constructor accepts any index: one of 65536 or more
    is stored as a different, smaller value, and the stored values are the
    given ones exactly when every index lies in [0, 65536). *)
Theorem indices_are_stored_modulo_65536 (shader : Shader) (vertices : list num)
    (indices : list Z) (color : list num) (draw_mode : DrawMode) (num_elements : Z)
    (s s' : State num) :
  let made := Shape.constructor shader vertices indices color draw_mode num_elements s in
  Shape.index_buffer (result made) = Some (S (length (buffers s)))
  /\ buffers (state made) !! S (length (buffers s)) =
       Some (Some (Uint16Array (map (fun i => i mod 65536)%Z indices)))
  /\ List.filter is_draw (calls (Shape.render (result made) s')) =
       [DrawElements draw_mode num_elements UNSIGNED_SHORT 0]
  /\ (forall i, In i indices -> (65536 <= i)%Z ->
        (0 <= ToUint16 i < 65536)%Z /\ ToUint16 i <> i)
  /\ (map ToUint16 indices = indices <->
        Forall (fun i => (0 <= i < 65536)%Z) indices).
Proof.
  intros made.
  destruct (constructor_objects shader vertices indices color draw_mode num_elements s)
    as (Hbuf & _ & _ & Hib & _).
  fold made in Hbuf, Hib.
  split; [exact Hib|].
  split.
  - rewrite Hbuf. rewrite lookup_app_r by lia.
    replace (S (length (buffers s)) - length (buffers s))%nat with 1%nat by lia.
    reflexivity.
  - split; [reflexivity|]. split; [|apply map_ToUint16_fixed].
    intros i _ Hi. split.
    + apply Z.mod_pos_bound. lia.
    + intros Heq. apply ToUint16_fixed in Heq. lia.
Qed.

(** ** Binding discipline *)

Lemma Shape_render_paired (this : Shape.t num) (s : State num) :
  binds_paired (calls (Shape.render this s)) = true
  /\ forall p, left_bound p None (calls (Shape.render this s)) = None.
Proof.
  rewrite Shape_render_calls. split.
  - destruct (Shape.vertex_array_object this), (Shape.index_buffer this); reflexivity.
  - intros [|[|]]; reflexivity.
Qed.

(** C7. Every operation that binds an object unbinds it before it returns.
    For [Shape.render] and for the three set-up steps of the constructor
    ([createVBO], [createIBO], [createVAO]): each bind in the calls of the
    operation is followed by a bind of [null] at the same bind point, the
    bind points the operation used hold [null] when it returns and the
    others hold what they held, so a context that was unbound on entry is
    unbound on return. The same discipline then holds for the operations
    built from them: both constructors, [addTriangle] and the frame; in the
    calls of the [Shape] constructor every bind point has as many binds as
    unbinds. *)
Theorem binds_are_paired (this : Shape.t num) (shader : Shader)
    (vertices : list num) (indices : list Z) (color : list num) (draw_mode : DrawMode)
    (num_elements : Z) (position : num * num) (sideLength : num)
    (app : WebGlApp.t num) (w h : Z) (s : State num) :
  (restores_bindings (Shape.render this)
   /\ bindings (state (Shape.render this s)) = (None, array_buffer_binding s, None))
  /\ (restores_bindings (Shape.createVBO this)
      /\ bindings (state (Shape.createVBO this s)) =
           (vertex_array_binding s, None, element_array_buffer_binding s))
  /\ (restores_bindings (Shape.createIBO this)
      /\ bindings (state (Shape.createIBO this s)) =
           (vertex_array_binding s, array_buffer_binding s, None))
  /\ (restores_bindings (Shape.createVAO this shader)
      /\ bindings (state (Shape.createVAO this shader s)) =
           (None, None, element_array_buffer_binding s))
  /\ (restores_bindings
        (Shape.constructor shader vertices indices color draw_mode num_elements)
      /\ unbound (state (Shape.constructor shader vertices indices color draw_mode
                            num_elements s))
      /\ forall p,
           length (List.filter (is_bind p)
                     (calls (Shape.constructor shader vertices indices color draw_mode
                               num_elements s))) =
           length (List.filter (is_unbind p)
                     (calls (Shape.constructor shader vertices indices color draw_mode
                               num_elements s))))
  /\ restores_bindings (Triangle.constructor shader position color sideLength)
  /\ restores_bindings (WebGlApp.addTriangle app shader position sideLength)
  /\ restores_bindings (WebGlApp.render app w h).
Proof.
  repeat match goal with |- _ /\ _ => split end;
    try reflexivity;
    try (intros s0; split; [|split]; [reflexivity | intros [|[|]]; reflexivity |];
         unfold unbound, bindings; cbn; congruence);
    try (rewrite constructor_calls; intros [|[|]]; reflexivity).
  - intros s0. destruct (Shape_render_paired this s0) as [Hp Hl].
    split; [exact Hp|split; [exact Hl|]].
    unfold unbound, bindings; cbn; congruence.
  - intros s0. split; [|split].
    + cbn. destruct (Shape.vertices_buffer this); reflexivity.
    + intros [|[|]]; reflexivity.
    + unfold unbound, bindings; cbn; congruence.
  - intros s0. rewrite WebGlApp_render_calls, WebGlApp_render_state.
    split; [|split].
    + apply (binds_paired_app [_; _; _]); [reflexivity|].
      apply binds_paired_flat_map. intros x; apply (Shape_render_paired x fresh).
    + intros p. cbn [left_bound bind_of].
      apply left_bound_flat_map. intros x; apply (Shape_render_paired x fresh).
    + unfold unbound, bindings. destruct (WebGlApp.shapes app); cbn; congruence.
Qed.

End Properties.

(** ** On IEEE binary64 *)

Section Binary64.
Local Open Scope float_scope.


(** C5, counterexample. Vertices of odd length, no index, an element
    count of 0: each is constructed, and each construction creates three
    objects on the context. *)
Lemma invalid_geometry_is_constructed :
  let odd := Shape.constructor basic_shader [0; 0; 1] [0%Z] [] TRIANGLES 1 fresh in
  let no_index := Shape.constructor basic_shader [0; 0] [] [] TRIANGLES 1 fresh in
  let no_element := Shape.constructor basic_shader [0; 0] [0%Z] [] TRIANGLES 0 fresh in
  (Shape.valid_geometry [0; 0; 1] [0%Z] 1 = false
   /\ Shape.vertices (result odd) = [0; 0; 1]
   /\ resources (state odd) = 3%nat
   /\ length (List.filter is_create (calls odd)) = 3%nat)
  /\ (Shape.valid_geometry [0; 0] [] 1 = false
      /\ Shape.indices (result no_index) = []
      /\ resources (state no_index) = 3%nat
      /\ length (List.filter is_create (calls no_index)) = 3%nat)
  /\ (Shape.valid_geometry [0; 0] [0%Z] 0 = false
      /\ Shape.num_elements (result no_element) = 0%Z
      /\ resources (state no_element) = 3%nat
      /\ length (List.filter is_create (calls no_element)) = 3%nat).
Proof. vm_compute. repeat split. Qed.

(** C6, counterexample. After one [addTriangle] and then [clearShapes]
    the scene is empty, and the three objects the triangle created are still
    on the context, its two buffers with their data: the clear issued no
    call. *)
Lemma clearShapes_leaks_the_triangle :
  let added := run WebGlApp.constructor [AddTriangle basic_shader (0, 0) 1] fresh in
  let cleared := step (result added) ClearShapes (state added) in
  length (WebGlApp.shapes (result added)) = 1%nat
  /\ resources (state added) = 3%nat
  /\ WebGlApp.shapes (result cleared) = []
  /\ calls cleared = []
  /\ resources (state cleared) = 3%nat
  /\ buffers (state cleared) !! 1%nat = Some (Some (Uint16Array [0; 1; 2]%Z))
  /\ (exists data, buffers (state cleared) !! 0%nat = Some (Some (Float32Array data))).
Proof. vm_compute. repeat split. eexists. reflexivity. Qed.

(** C9, counterexample. The constructor of [Shape] takes an index that
    names no vertex, and an element count above the number of indices: the
    shapes it returns do not satisfy the invariant. *)
Lemma Shape_constructor_breaks_invariant :
  let far := Shape.constructor basic_shader [0; 0] [5%Z] [] POINTS 1 fresh in
  let many := Shape.constructor basic_shader [0; 0] [0%Z] [] POINTS 7 fresh in
  Shape.invariant (result far) = false /\ Shape.invariant (result many) = false.
Proof. vm_compute. split; reflexivity. Qed.

End Binary64.

(** ** In exact arithmetic *)

Section ExactArithmetic.
Local Open Scope R_scope.

(** The angle of the constructor: 30 degrees is PI/6, with cosine sqrt(3)/2
    and sine 1/2. *)
Lemma exact_angle :
  deg2rad (num_lit 30) = Rtrigo1.PI / 6
  /\ Math_cos (deg2rad (num_lit 30)) = R_sqrt.sqrt 3 / 2
  /\ Math_sin (deg2rad (num_lit 30)) = 1 / 2.
Proof.
  assert (Hangle : deg2rad (num_lit 30) = Rtrigo1.PI / 6).
  { cbn. unfold Utils.deg2rad. cbn. field. }
  rewrite Hangle. cbn [Math_cos Math_sin Exact.host].
  split; [reflexivity | split; [apply cos_PI6 | apply sin_PI6]].
Qed.

(** In exact arithmetic the triangle is equilateral: each side has squared
    length 3 * sideLength^2. *)
Lemma exact_triangle_equilateral (px py sideLength : R) :
  let a := (px, py - sideLength) in
  let b := (px + sideLength * (R_sqrt.sqrt 3 / 2), py + sideLength * (1 / 2)) in
  let c := (px - sideLength * (R_sqrt.sqrt 3 / 2), py + sideLength * (1 / 2)) in
  Geometry.dist2 a b = 3 * (sideLength * sideLength)
  /\ Geometry.dist2 b c = 3 * (sideLength * sideLength)
  /\ Geometry.dist2 c a = 3 * (sideLength * sideLength).
Proof.
  assert (Hsqrt3 : R_sqrt.sqrt 3 * R_sqrt.sqrt 3 = 3) by (apply sqrt_sqrt; lra).
  unfold Geometry.dist2; cbn. repeat split; nra.
Qed.



End ExactArithmetic.

(** * Further properties of the program *)

Section Objects.
Context {num : Type} `{JSNumber num} `{Host num}.

(** ** What a constructor and a frame do to the objects of the context *)

(** X1. Constructing a shape does not touch the buffers that exist: every
    buffer of the context keeps its handle and its data store, whatever was
    bound on entry. The two new buffers come right after them and hold the
    vertices, each converted to single precision, and the indices. *)
Theorem constructor_keeps_existing_buffers (shader : Shader) (vertices : list num)
    (indices : list Z) (color : list num) (draw_mode : DrawMode) (num_elements : Z)
    (s : State num) :
  let made := Shape.constructor shader vertices indices color draw_mode num_elements s in
  (forall b, (b < length (buffers s))%nat -> buffers (state made) !! b = buffers s !! b)
  /\ (forall h, data_store s h <> None -> data_store (state made) h = data_store s h)
  /\ length (buffers (state made)) = (length (buffers s) + 2)%nat
  /\ data_store (state made) (Shape.vertices_buffer (result made)) =
       Some (Float32Array (map num_fround vertices))
  /\ data_store (state made) (Shape.index_buffer (result made)) =
       Some (Uint16Array (map ToUint16 indices)).
Proof.
  intros made.
  destruct (constructor_objects shader vertices indices color draw_mode num_elements s)
    as (Hbuf & _ & Hvb & Hib & _).
  fold made in Hbuf, Hvb, Hib.
  assert (Hkeep : forall b, (b < length (buffers s))%nat ->
                    buffers (state made) !! b = buffers s !! b).
  { intros b Hb. rewrite Hbuf. apply lookup_app_l, Hb. }
  split; [exact Hkeep|].
  split.
  - intros [b|] Hh; [|reflexivity]. unfold data_store, WebGLBuffer in *.
    destruct (Nat.lt_ge_cases b (length (buffers s))) as [Hb|Hb].
    + rewrite (Hkeep b Hb). reflexivity.
    + exfalso. apply Hh. rewrite (lookup_ge_None_2 (buffers s) b Hb). reflexivity.
  - split; [rewrite Hbuf, length_app; reflexivity|].
    unfold data_store, WebGLBuffer in *. rewrite Hvb, Hib, Hbuf. split.
    + rewrite lookup_app_r by lia. rewrite Nat.sub_diag. reflexivity.
    + rewrite lookup_app_r by lia.
      replace (S (length (buffers s)) - length (buffers s))%nat with 1%nat by lia.
      reflexivity.
Qed.

(** X2. A frame reads and never writes the objects: it creates nothing,
    uploads nothing, and leaves every buffer with the data it had, for any
    scene and any size of the canvas. *)
Theorem render_leaves_objects_alone (app : WebGlApp.t num) (w h : Z) (s : State num) :
  let frame := WebGlApp.render app w h s in
  buffers (state frame) = buffers s
  /\ vertex_arrays (state frame) = vertex_arrays s
  /\ (forall shape, Shape.uploaded s shape -> Shape.uploaded (state frame) shape)
  /\ List.filter is_create (calls frame) = []
  /\ List.filter is_upload (calls frame) = [].
Proof.
  intros frame; subst frame.
  assert (Hbuf : buffers (state (WebGlApp.render app w h s)) = buffers s)
    by (rewrite WebGlApp_render_state; destruct (WebGlApp.shapes app); reflexivity).
  assert (Hvao : vertex_arrays (state (WebGlApp.render app w h s)) = vertex_arrays s)
    by (rewrite WebGlApp_render_state; destruct (WebGlApp.shapes app); reflexivity).
  split; [exact Hbuf|]. split; [exact Hvao|]. split.
  - intros shape (Hv & Hi & Ha). unfold Shape.uploaded, data_store, is_vertex_array.
    rewrite Hbuf, Hvao. auto.
  - rewrite WebGlApp_render_calls. cbn [List.filter is_create is_upload].
    split; apply filter_flat_map_none; reflexivity.
Qed.


End Objects.

Section Runs.
Context {num : Type} `{JSNumber num} `{Host num}.

(** ** Sequences of operations *)

Lemma lookup_map {A B} (f : A -> B) (l : list A) (i : nat) :
  map f l !! i = f <$> (l !! i).
Proof. exact (list_lookup_fmap f l i). Qed.

Lemma Triangle_objects shader position color sideLength (s : State num) :
  let made := Triangle.constructor shader position color sideLength s in
  buffers (state made) =
    buffers s
    ++ [ Some (new_Float32Array (Shape.vertices (result made)));
         Some (new_Uint16Array (Shape.indices (result made))) ]
  /\ vertex_arrays (state made) = S (vertex_arrays s)
  /\ bindings (state made) = (None, None, None)
  /\ Shape.handles (result made) =
       (Some (length (buffers s)), Some (S (length (buffers s))), Some (vertex_arrays s)).
Proof.
  intros made; subst made. unfold Triangle.constructor, Shape.handles.
  match goal with |- context [Shape.constructor ?a ?b ?c ?d ?e ?f s] =>
    destruct (constructor_objects a b c d e f s) as (Hb & Hv & Hvb & Hib & Hva);
    rewrite Hb, Hv, Hvb, Hib, Hva
  end.
  repeat split.
Qed.

Lemma addTriangle_state (app : WebGlApp.t num) shader position sideLength (s : State num) :
  state (WebGlApp.addTriangle app shader position sideLength s) =
  state (Triangle.constructor shader position (hex2rgb "#FFBF00") sideLength s).
Proof. reflexivity. Qed.

Lemma step_objects (app : WebGlApp.t num) (op : Op) (s : State num) :
  exists extra,
    buffers (state (step app op s)) = buffers s ++ extra
    /\ length extra = (if is_add op then 2 else 0)%nat
    /\ vertex_arrays (state (step app op s)) =
         (vertex_arrays s + if is_add op then 1 else 0)%nat.
Proof.
  destruct op as [shader position sideLength | | w h]; cbn [step is_add].
  - rewrite addTriangle_state.
    destruct (Triangle_objects shader position (hex2rgb "#FFBF00") sideLength s)
      as (Hb & Hv & _).
    eexists; split; [exact Hb|]. split; [reflexivity|]. rewrite Hv. lia.
  - exists []. cbn. rewrite app_nil_r. repeat split. lia.
  - exists []. rewrite bind_state. cbn [ret state fst snd].
    rewrite WebGlApp_render_state, app_nil_r.
    destruct (WebGlApp.shapes app); cbn; repeat split; lia.
Qed.

(** X4. The number of shapes follows the operations: [addTriangle] adds one,
    [clearShapes] resets it to zero, [render] keeps it. After any list of
    operations the scene has as many shapes as [addTriangle] was called since
    the last [clearShapes]. *)
Theorem shape_count_follows_operations (ops : list Op) :
  forall (app : WebGlApp.t num) (s : State num),
    length (WebGlApp.shapes (result (run app ops s))) =
      shape_count (length (WebGlApp.shapes app)) ops.
Proof.
  induction ops as [|op ops IH]; intros app s; cbn [run shape_count].
  - reflexivity.
  - rewrite bind_result, IH. destruct op as [shader position sideLength | | w h].
    + cbn [step]. rewrite addTriangle_shapes, length_app. cbn [length].
      rewrite Nat.add_1_r. reflexivity.
    + reflexivity.
    + cbn [step]. rewrite bind_result. reflexivity.
Qed.

(** X5. Objects are only ever created. After any list of operations the
    context holds the objects it had plus three for every [addTriangle] in
    the list, two buffers and one vertex array object, whether or not the
    triangles are still in the scene: [clearShapes] and [render] give nothing
    back. *)
Theorem objects_grow_by_three_per_triangle (ops : list Op) :
  forall (app : WebGlApp.t num) (s : State num),
    length (buffers (state (run app ops s))) =
      (length (buffers s) + 2 * length (List.filter is_add ops))%nat
    /\ vertex_arrays (state (run app ops s)) =
         (vertex_arrays s + length (List.filter is_add ops))%nat
    /\ resources (state (run app ops s)) =
         (resources s + 3 * length (List.filter is_add ops))%nat.
Proof.
  induction ops as [|op ops IH]; intros app s; cbn [run List.filter].
  - unfold resources; cbn. repeat split; lia.
  - rewrite bind_state.
    destruct (IH (result (step app op s)) (state (step app op s))) as (Hb & Hv & _).
    destruct (step_objects app op s) as (extra & Hb' & Hlen & Hv').
    unfold resources. rewrite Hb, Hv, Hb', Hv', length_app, Hlen.
    destruct (is_add op); cbn [length]; repeat split; lia.
Qed.

(** X6. A context with nothing bound has nothing bound after any list of
    operations of the program. *)
Theorem run_keeps_context_unbound (ops : list Op) (app : WebGlApp.t num) (s : State num) :
  unbound s -> unbound (state (run app ops s)).
Proof.
  revert app s; induction ops as [|op ops IH]; intros app s Hs; cbn [run].
  - exact Hs.
  - rewrite bind_state. apply IH.
    destruct op as [shader position sideLength | | w h]; cbn [step].
    + rewrite addTriangle_state.
      apply (Triangle_objects shader position (hex2rgb "#FFBF00") sideLength s).
    + exact Hs.
    + rewrite bind_state. cbn [ret state fst snd]. rewrite WebGlApp_render_state.
      unfold unbound, bindings in *. destruct (WebGlApp.shapes app); cbn; congruence.
Qed.

(** ** The objects of the stored shapes *)

Lemma run_handles (requests : list (Shader * (num * num) * num)) :
  forall (app : WebGlApp.t num) (s : State num),
    map Shape.handles (WebGlApp.shapes (result (run app (map request_op requests) s))) =
      map Shape.handles (WebGlApp.shapes app)
      ++ map (fun i => (Some (length (buffers s) + 2 * i)%nat,
                        Some (length (buffers s) + 2 * i + 1)%nat,
                        Some (vertex_arrays s + i)%nat))
             (seq 0 (length requests)).
Proof.
  induction requests as [|[[shader position] sideLength] requests IH]; intros app s.
  - cbn. rewrite app_nil_r. reflexivity.
  - cbn [map request_op run]. rewrite bind_result. cbn [step].
    rewrite IH, addTriangle_shapes, addTriangle_state, map_app.
    destruct (Triangle_objects shader position (hex2rgb "#FFBF00") sideLength s)
      as (Hb & Hv & _ & Hh).
    cbn [map length seq]. rewrite Hb, Hv, Hh, length_app. cbn [length].
    rewrite <- app_assoc. cbn [List.app]. do 2 f_equal.
    + f_equal; [f_equal|]; f_equal; lia.
    + rewrite <- seq_shift, map_map. apply map_ext. intros i.
      f_equal; [f_equal|]; f_equal; lia.
Qed.

(** X7. The triangles added to a new scene get, in the order they are
    added, the buffers and the vertex array objects that follow those the
    context already had: triangle i holds buffers 2i and 2i+1 and vertex
    array object i past them. *)
Theorem triangles_get_consecutive_handles (requests : list (Shader * (num * num) * num))
    (s : State num) :
  let scene := WebGlApp.shapes
                 (result (run WebGlApp.constructor (map request_op requests) s)) in
  map Shape.handles scene =
    map (fun i => (Some (length (buffers s) + 2 * i)%nat,
                   Some (length (buffers s) + 2 * i + 1)%nat,
                   Some (vertex_arrays s + i)%nat))
        (seq 0 (length requests))
  /\ (forall i a, scene !! i = Some a ->
        Shape.handles a = (Some (length (buffers s) + 2 * i)%nat,
                           Some (length (buffers s) + 2 * i + 1)%nat,
                           Some (vertex_arrays s + i)%nat)).
Proof.
  intros scene.
  pose proof (run_handles requests WebGlApp.constructor s) as Hmap.
  cbn [WebGlApp.constructor WebGlApp.shapes map List.app] in Hmap. fold scene in Hmap.
  split; [exact Hmap|].
  intros i a Hi.
  assert (Hl : map Shape.handles scene !! i = Some (Shape.handles a))
    by (rewrite lookup_map, Hi; reflexivity).
  rewrite Hmap, lookup_map in Hl.
  destruct (seq 0 (length requests) !! i) as [k|] eqn:Hk; [|discriminate].
  apply lookup_seq in Hk as [-> _]. cbn [fmap option_fmap option_map] in Hl.
  apply (inj Some) in Hl. rewrite <- Hl. reflexivity.
Qed.

Lemma separated_snoc (nb nv : nat) (scene : list (Shape.t num)) (t : Shape.t num) :
  separated nb nv scene ->
  Shape.handles t = (Some nb, Some (S nb), Some nv) ->
  separated (nb + 2) (S nv) (scene ++ [t]).
Proof.
  intros Hsep Ht i a Hi. apply lookup_app_Some in Hi as [Hi|[Hlen Hi]].
  - destruct (Hsep i a Hi) as (k & v & Ha & Hk & Hv & Hlater).
    exists k, v. repeat split; [exact Ha | lia | lia |].
    intros j b Hij Hj. apply lookup_app_Some in Hj as [Hj|[_ Hj]].
    + exact (Hlater j b Hij Hj).
    + apply list_lookup_singleton_Some in Hj as [_ <-].
      exists nb, nv. repeat split; [exact Ht | lia | lia].
  - apply list_lookup_singleton_Some in Hi as [Hi <-].
    exists nb, nv. repeat split; [exact Ht | lia | lia |].
    intros j b Hij Hj. apply lookup_app_Some in Hj as [Hj|[_ Hj]].
    + apply lookup_lt_Some in Hj. lia.
    + apply list_lookup_singleton_Some in Hj as [Hj _]. lia.
Qed.

Lemma run_separated (ops : list Op) :
  forall (app : WebGlApp.t num) (s : State num),
    separated (length (buffers s)) (vertex_arrays s) (WebGlApp.shapes app) ->
    separated (length (buffers (state (run app ops s))))
              (vertex_arrays (state (run app ops s)))
              (WebGlApp.shapes (result (run app ops s))).
Proof.
  induction ops as [|op ops IH]; intros app s Happ; cbn [run].
  - exact Happ.
  - rewrite bind_state, bind_result. apply IH.
    destruct op as [shader position sideLength | | w h]; cbn [step].
    + rewrite addTriangle_shapes, addTriangle_state.
      destruct (Triangle_objects shader position (hex2rgb "#FFBF00") sideLength s)
        as (Hb & Hv & _ & Hh).
      rewrite Hb, Hv, length_app. cbn [length].
      apply separated_snoc; [exact Happ | exact Hh].
    + intros i a Hi. discriminate.
    + rewrite bind_state, bind_result. cbn [ret result state fst snd].
      assert (Hb : buffers (state (WebGlApp.render app w h s)) = buffers s)
        by (rewrite WebGlApp_render_state; destruct (WebGlApp.shapes app); reflexivity).
      assert (Hv : vertex_arrays (state (WebGlApp.render app w h s)) = vertex_arrays s)
        by (rewrite WebGlApp_render_state; destruct (WebGlApp.shapes app); reflexivity).
      rewrite Hb, Hv. exact Happ.
Qed.

(** X16. Shapes never share an object. In every scene reached from a new
    [WebGlApp] by any operations, on any context, the vertex buffer, the
    index buffer and the vertex array object of a shape are objects of the
    context, the two buffers of a shape differ, and no buffer or vertex
    array object of one shape is a buffer or vertex array object of another
    shape of the scene. *)
Theorem shapes_never_share_objects (ops : list Op) (s : State num) :
  let final := run WebGlApp.constructor ops s in
  let scene := WebGlApp.shapes (result final) in
  (forall i a, scene !! i = Some a ->
     exists k v,
       Shape.handles a = (Some k, Some (S k), Some v)
       /\ (S k < length (buffers (state final)))%nat
       /\ (v < vertex_arrays (state final))%nat)
  /\ (forall i j a b, i <> j -> scene !! i = Some a -> scene !! j = Some b ->
        Shape.vertices_buffer a <> Shape.vertices_buffer b
        /\ Shape.vertices_buffer a <> Shape.index_buffer b
        /\ Shape.index_buffer a <> Shape.vertices_buffer b
        /\ Shape.index_buffer a <> Shape.index_buffer b
        /\ Shape.vertex_array_object a <> Shape.vertex_array_object b).
Proof.
  intros final scene.
  assert (Hsep : separated (length (buffers (state final))) (vertex_arrays (state final))
                   scene).
  { apply run_separated. intros i a Hi. discriminate. }
  assert (Hlt : forall i j a b, (i < j)%nat -> scene !! i = Some a -> scene !! j = Some b ->
            Shape.vertices_buffer a <> Shape.vertices_buffer b
            /\ Shape.vertices_buffer a <> Shape.index_buffer b
            /\ Shape.index_buffer a <> Shape.vertices_buffer b
            /\ Shape.index_buffer a <> Shape.index_buffer b
            /\ Shape.vertex_array_object a <> Shape.vertex_array_object b).
  { intros i j a b Hij Hi Hj.
    destruct (Hsep i a Hi) as (k & v & Ha & _ & _ & Hlater).
    destruct (Hlater j b Hij Hj) as (k' & v' & Hb & Hk & Hv).
    unfold Shape.handles in Ha, Hb.
    injection Ha as Ha1 Ha2 Ha3. injection Hb as Hb1 Hb2 Hb3.
    rewrite Ha1, Ha2, Ha3, Hb1, Hb2, Hb3.
    repeat split; intros Heq; injection Heq; lia. }
  split.
  - intros i a Hi. destruct (Hsep i a Hi) as (k & v & Ha & Hk & Hv & _).
    exists k, v. auto.
  - intros i j a b Hij Hi Hj.
    destruct (Nat.lt_total i j) as [Hlt'|[Heq|Hgt]]; [exact (Hlt i j a b Hlt' Hi Hj) | lia |].
    destruct (Hlt j i b a Hgt Hj Hi) as (H1 & H2 & H3 & H4 & H5).
    repeat split; intros Heq; symmetry in Heq; contradiction.
Qed.

Lemma uploaded_extends (s s' : State num) (extra : list (option (TypedArray num)))
    (shape : Shape.t num) :
  buffers s' = buffers s ++ extra ->
  (vertex_arrays s <= vertex_arrays s')%nat ->
  Shape.uploaded s shape -> Shape.uploaded s' shape.
Proof.
  intros Hb Hv (Hvs & His & Hva).
  assert (Hstore : forall h d, data_store s h = Some d -> data_store s' h = Some d).
  { intros [b|] d; [|discriminate]. unfold data_store, WebGLBuffer in *. rewrite Hb.
    destruct (buffers s !! b) as [o|] eqn:Ho; [|discriminate].
    intros ->. rewrite (lookup_app_l_Some _ _ _ _ Ho). reflexivity. }
  split; [apply Hstore, Hvs|]. split; [apply Hstore, His|].
  unfold is_vertex_array in *. destruct (Shape.vertex_array_object shape) as [v|];
    [|discriminate].
  apply Nat.ltb_lt in Hva. apply Nat.ltb_lt. lia.
Qed.

Lemma Triangle_uploaded shader position color sideLength (s : State num) :
  let made := Triangle.constructor shader position color sideLength s in
  Shape.uploaded (state made) (result made).
Proof.
  intros made.
  destruct (Triangle_objects shader position color sideLength s) as (Hb & Hv & _ & Hh).
  fold made in Hb, Hv, Hh. unfold Shape.handles in Hh.
  pose proof (f_equal (fun t => fst (fst t)) Hh) as Hvb.
  pose proof (f_equal (fun t => snd (fst t)) Hh) as Hib.
  pose proof (f_equal snd Hh) as Hva. cbn [fst snd] in Hvb, Hib, Hva. clear Hh.
  unfold Shape.uploaded, data_store, is_vertex_array, WebGLBuffer in *.
  rewrite Hvb, Hib, Hva, Hb, Hv. split; [|split].
  - rewrite lookup_app_r by lia. rewrite Nat.sub_diag. reflexivity.
  - rewrite lookup_app_r by lia.
    replace (S (length (buffers s)) - length (buffers s))%nat with 1%nat by lia.
    reflexivity.
  - apply Nat.ltb_lt. lia.
Qed.

Lemma step_uploaded (app : WebGlApp.t num) (op : Op) (s : State num) :
  Forall (Shape.uploaded s) (WebGlApp.shapes app) ->
  Forall (Shape.uploaded (state (step app op s)))
         (WebGlApp.shapes (result (step app op s))).
Proof.
  intros Happ.
  destruct (step_objects app op s) as (extra & Hb & _ & Hv).
  assert (Hold : Forall (Shape.uploaded (state (step app op s))) (WebGlApp.shapes app)).
  { eapply Forall_impl; [exact Happ|]. intros shape.
    apply (uploaded_extends s _ extra); [exact Hb | lia]. }
  destruct op as [shader position sideLength | | w h]; cbn [step] in *.
  - rewrite addTriangle_shapes. apply Forall_app; split; [exact Hold|].
    constructor; [|constructor]. rewrite addTriangle_state. apply Triangle_uploaded.
  - constructor.
  - rewrite bind_result. exact Hold.
Qed.

Lemma run_uploaded (ops : list Op) :
  forall (app : WebGlApp.t num) (s : State num),
    Forall (Shape.uploaded s) (WebGlApp.shapes app) ->
    Forall (Shape.uploaded (state (run app ops s)))
           (WebGlApp.shapes (result (run app ops s))).
Proof.
  induction ops as [|op ops IH]; intros app s Happ; cbn [run].
  - exact Happ.
  - rewrite bind_state, bind_result. apply IH, step_uploaded, Happ.
Qed.

(** X8. Every stored shape stays on the context. In every scene reached from
    a new [WebGlApp] by any operations, on any context, each shape's vertex
    buffer still holds its vertices and its index buffer its indices as
    they were uploaded when it was constructed, and its vertex array object
    exists: no later [addTriangle] or [render] overwrites them. *)
Theorem stored_shapes_stay_uploaded (ops : list Op) (s : State num) :
  let final := run WebGlApp.constructor ops s in
  Forall (Shape.uploaded (state final)) (WebGlApp.shapes (result final)).
Proof. apply run_uploaded. constructor. Qed.

End Runs.

Section Bindings.
Context {num : Type} `{JSNumber num} `{Host num}.

(** ** What is bound when a call is issued *)

Lemma annotate_app b (l1 l2 : list (Call num)) :
  annotate b (l1 ++ l2) = annotate b l1 ++ annotate (rebind_all b l1) l2.
Proof.
  revert b; induction l1 as [|c l1 IH]; intros b; cbn [List.app annotate].
  - reflexivity.
  - rewrite IH. reflexivity.
Qed.

Lemma annotate_shapes (l : list (Shape.t num)) :
  forall b,
    List.filter (fun bc => is_draw (snd bc))
      (annotate b (flat_map (fun shape => calls (Shape.render shape fresh)) l)) =
    map (fun shape =>
           ((Shape.vertex_array_object shape, snd (fst b), Shape.index_buffer shape),
            DrawElements (Shape.draw_mode shape) (Shape.num_elements shape)
              UNSIGNED_SHORT 0)) l.
Proof.
  induction l as [|shape l IH]; intros b; cbn [flat_map map].
  - reflexivity.
  - rewrite annotate_app, List.filter_app, IH. destruct b as [[v a] e]. reflexivity.
Qed.

(** X9. Every shape is drawn with its own objects bound. In a frame, for any
    scene and whatever is bound when the frame starts, each [drawElements]
    is issued while the vertex array object and the index buffer of the
    shape being drawn are the ones bound; nothing a previous shape bound is
    still bound, and ARRAY_BUFFER holds what it held before the frame. *)
Theorem draws_use_the_shape_objects (app : WebGlApp.t num) (w h : Z) (s : State num) :
  List.filter (fun bc => is_draw (snd bc))
    (annotate (bindings s) (calls (WebGlApp.render app w h s))) =
  map (fun shape =>
         ((Shape.vertex_array_object shape, array_buffer_binding s,
           Shape.index_buffer shape),
          DrawElements (Shape.draw_mode shape) (Shape.num_elements shape)
            UNSIGNED_SHORT 0))
      (WebGlApp.shapes app).
Proof.
  rewrite WebGlApp_render_calls. cbn [annotate rebind List.filter snd is_draw].
  apply annotate_shapes.
Qed.

(** X10. The constructor fills and describes the objects it has just
    created, whatever is bound when it starts: the vertices are uploaded
    while the new vertex buffer is bound to ARRAY_BUFFER, the indices while
    the new index buffer is bound to ELEMENT_ARRAY_BUFFER, and the attribute
    is enabled and pointed at the vertex buffer while the new vertex array
    object is bound. Until it binds that vertex array object, the vertex
    array the caller had bound stays bound. *)
Theorem constructor_sets_up_its_own_objects (shader : Shader) (vertices : list num)
    (indices : list Z) (color : list num) (draw_mode : DrawMode) (num_elements : Z)
    (s : State num) :
  let made := Shape.constructor shader vertices indices color draw_mode num_elements s in
  let location := default (-1)%Z (attributes (program shader) !! "a_position") in
  List.filter (fun bc => is_upload (snd bc) || is_attribute_setup (snd bc))
    (annotate (bindings s) (calls made)) =
  [ ((vertex_array_binding s, Shape.vertices_buffer (result made),
      element_array_buffer_binding s),
     BufferData ARRAY_BUFFER (new_Float32Array vertices) STATIC_DRAW);
    ((vertex_array_binding s, None, Shape.index_buffer (result made)),
     BufferData ELEMENT_ARRAY_BUFFER (new_Uint16Array indices) STATIC_DRAW);
    ((Shape.vertex_array_object (result made), None, None),
     EnableVertexAttribArray location);
    ((Shape.vertex_array_object (result made), Shape.vertices_buffer (result made), None),
     VertexAttribPointer location 2 FLOAT false 0 0) ].
Proof.
  intros made location.
  destruct (constructor_objects shader vertices indices color draw_mode num_elements s)
    as (_ & _ & Hvb & Hib & Hva).
  fold made in Hvb, Hib, Hva. rewrite Hvb, Hib, Hva.
  subst made. rewrite constructor_calls. reflexivity.
Qed.

(** ** Programs without the attribute or the uniform *)

(** X11. A shader whose program has no attribute [a_position] is not
    detected: the constructor enables and describes attribute -1, the answer
    of [getAttribLocation], and returns a shape with its three objects as for
    any other shader. *)
Theorem missing_attribute_is_not_detected (shader : Shader) (vertices : list num)
    (indices : list Z) (color : list num) (draw_mode : DrawMode) (num_elements : Z)
    (s : State num) :
  attributes (program shader) !! "a_position" = None ->
  let made := Shape.constructor shader vertices indices color draw_mode num_elements s in
  List.filter is_attribute_setup (calls made) =
    [EnableVertexAttribArray (-1); VertexAttribPointer (-1) 2 FLOAT false 0 0]
  /\ Shape.handles (result made) =
       (Some (length (buffers s)), Some (S (length (buffers s))), Some (vertex_arrays s))
  /\ resources (state made) = (resources s + 3)%nat.
Proof.
  intros Hmissing made.
  destruct (constructor_objects shader vertices indices color draw_mode num_elements s)
    as (Hbuf & Hvao & Hvb & Hib & Hva).
  fold made in Hbuf, Hvao, Hvb, Hib, Hva.
  split; [|split].
  - subst made. rewrite constructor_calls, Hmissing. reflexivity.
  - unfold Shape.handles. rewrite Hvb, Hib, Hva. reflexivity.
  - unfold resources. rewrite Hbuf, Hvao, length_app. cbn. lia.
Qed.

(** X12. A shape whose program has no uniform [u_color] is drawn all the
    same: [render] passes the [null] location to [uniform3fv] and issues the
    draw call. *)
Theorem missing_uniform_is_not_detected (this : Shape.t num) (s : State num) :
  uniforms (program (Shape.shader this)) !! "u_color" = None ->
  List.filter is_uniform (calls (Shape.render this s)) = [Uniform3fv None (Shape.color this)]
  /\ List.filter is_draw (calls (Shape.render this s)) =
       [DrawElements (Shape.draw_mode this) (Shape.num_elements this) UNSIGNED_SHORT 0].
Proof.
  intros Hmissing. rewrite Shape_render_calls, Hmissing. split; reflexivity.
Qed.

End Bindings.

Section Scenes.
Context {num : Type} `{JSNumber num} `{Host num}.

(** ** What the scenes of the program contain *)

(** A property of every triangle [addTriangle] makes holds of every shape of
    every scene the program reaches from scenes where it holds. *)
Lemma run_Forall (P : Shape.t num -> Prop) :
  (forall shader position sideLength s,
     P (result (Triangle.constructor shader position (hex2rgb "#FFBF00") sideLength s))) ->
  forall (ops : list Op) (app : WebGlApp.t num) (s : State num),
    Forall P (WebGlApp.shapes app) ->
    Forall P (WebGlApp.shapes (result (run app ops s))).
Proof.
  intros Hnew ops; induction ops as [|op ops IH]; intros app s Happ; cbn [run].
  - exact Happ.
  - rewrite bind_result. apply IH.
    destruct op as [shader position sideLength | | w h]; cbn [step].
    + rewrite addTriangle_shapes. apply Forall_app; split; [exact Happ|].
      constructor; [apply Hnew | constructor].
    + constructor.
    + rewrite bind_result. exact Happ.
Qed.

Lemma map_constant {A B} (f : A -> B) (y : B) (l : list A) :
  Forall (fun x => f x = y) l -> map f l = repeat y (length l).
Proof.
  induction 1 as [|x l Hx _ IH]; cbn [map length repeat].
  - reflexivity.
  - rewrite Hx, IH. reflexivity.
Qed.

(** X13. Every scene the program reaches from a new [WebGlApp] holds only
    triangles in the one fill colour of [addTriangle]: each shape has the
    colour [hex2rgb('#FFBF00')], draw mode TRIANGLES, 3 elements, indices
    0, 1, 2 and six vertex scalars read two per vertex, whatever positions
    and side lengths were asked for. A frame of such a scene therefore
    issues as many identical draw calls as there are shapes. *)
Theorem scenes_hold_gold_triangles (ops : list Op) (w h : Z) (s s' : State num) :
  let scene := WebGlApp.shapes (result (run WebGlApp.constructor ops s)) in
  Forall (fun shape =>
            Shape.color shape = hex2rgb "#FFBF00"
            /\ Shape.draw_mode shape = TRIANGLES
            /\ Shape.num_elements shape = 3%Z
            /\ Shape.indices shape = [0; 1; 2]%Z
            /\ length (Shape.vertices shape) = 6%nat
            /\ Shape.num_components shape = 2%Z) scene
  /\ List.filter is_draw
       (calls (WebGlApp.render (result (run WebGlApp.constructor ops s)) w h s')) =
     repeat (DrawElements TRIANGLES 3 UNSIGNED_SHORT 0) (length scene).
Proof.
  intros scene.
  assert (Hall : Forall (fun shape =>
            Shape.color shape = hex2rgb "#FFBF00"
            /\ Shape.draw_mode shape = TRIANGLES
            /\ Shape.num_elements shape = 3%Z
            /\ Shape.indices shape = [0; 1; 2]%Z
            /\ length (Shape.vertices shape) = 6%nat
            /\ Shape.num_components shape = 2%Z) scene).
  { apply run_Forall; [|constructor]. intros; repeat split. }
  split; [exact Hall|].
  rewrite WebGlApp_render_calls. cbn [List.filter is_draw].
  rewrite (filter_flat_map_one is_draw _
             (fun shape => DrawElements (Shape.draw_mode shape) (Shape.num_elements shape)
                             UNSIGNED_SHORT 0)) by reflexivity.
  apply map_constant. fold scene.
  eapply Forall_impl; [exact Hall|]. intros shape (_ & -> & -> & _). reflexivity.
Qed.

End Scenes.

Section IndexRange.
Context {num : Type} `{JSNumber num}.

(** X14. For a shape that satisfies the invariant of the data model and has
    at most 65536 vertices the upload of the indices is exact: the
    [Uint16Array] the constructor builds holds the indices themselves. *)
Theorem invariant_makes_index_upload_exact (this : Shape.t num) :
  Shape.invariant this = true ->
  (Z.of_nat (length (Shape.vertices this)) / 2 <= 65536)%Z ->
  new_Uint16Array (num := num) (Shape.indices this) = Uint16Array (Shape.indices this).
Proof.
  intros Hinv Hsize. unfold new_Uint16Array. f_equal.
  apply map_ToUint16_fixed.
  unfold Shape.invariant in Hinv. apply andb_true_iff in Hinv as [Hall _].
  rewrite forallb_forall in Hall. apply List.Forall_forall. intros i Hi.
  specialize (Hall i Hi). unfold Shape.index_in_range in Hall.
  apply andb_true_iff in Hall as [Hlo Hhi]. lia.
Qed.

End IndexRange.

Section Examples.
Local Open Scope float_scope.

(** A run of the program on a context with nothing bound. *)
Lemma fresh_context_stays_unbound :
  unbound (num := float) fresh
  /\ unbound (state (run WebGlApp.constructor
                       [AddTriangle basic_shader (0, 0) 1; Render 800 600;
                        ClearShapes; Render 1 1] fresh)).
Proof.
  split; [reflexivity|].
  apply (run_keeps_context_unbound (num := float)). reflexivity.
Defined.

(** A shader whose program has neither the attribute nor the uniform. *)
Lemma empty_program_is_accepted :
  let empty := {| program := {| attributes := ∅; uniforms := ∅ |} |} in
  attributes (program empty) !! "a_position"%string = None
  /\ List.filter is_attribute_setup
       (calls (Shape.constructor empty [0; 0; 1; 0; 0; 1] [0; 1; 2]%Z [] TRIANGLES 3
                 fresh)) =
     [EnableVertexAttribArray (-1); VertexAttribPointer (-1) 2 FLOAT false 0 0].
Proof.
  intros empty. split; [reflexivity|].
  apply (missing_attribute_is_not_detected (num := float) empty). reflexivity.
Defined.

Lemma empty_program_is_drawn :
  let empty := {| program := {| attributes := ∅; uniforms := ∅ |} |} in
  let shape :=
    result (Shape.constructor empty [0; 0; 1; 0; 0; 1] [0; 1; 2]%Z [1; 0; 0] TRIANGLES 3
              fresh) in
  uniforms (program (Shape.shader shape)) !! "u_color"%string = None
  /\ List.filter is_draw (calls (Shape.render shape fresh)) =
     [DrawElements TRIANGLES 3 UNSIGNED_SHORT 0].
Proof.
  intros empty shape. split; [reflexivity|].
  apply (missing_uniform_is_not_detected (num := float) shape fresh). reflexivity.
Defined.

Lemma triangle_index_upload_is_exact :
  let shape := result (Triangle.constructor basic_shader (0, 0) [] 1 fresh) in
  Shape.invariant shape = true
  /\ (Z.of_nat (length (Shape.vertices shape)) / 2 <= 65536)%Z
  /\ new_Uint16Array (num := float) (Shape.indices shape) = Uint16Array [0; 1; 2]%Z.
Proof.
  intros shape. split; [reflexivity|]. split; [vm_compute; discriminate|].
  apply (invariant_makes_index_upload_exact shape); [reflexivity|vm_compute; discriminate].
Defined.

End Examples.

Section ExactGeometry.
Local Open Scope R_scope.

(** X15. The triangle in exact arithmetic, for every side length, negative
    and zero included. The position is the centroid of the three vertices
    and each vertex is at distance |sideLength| from it; the three sides are
    equal, of length sqrt(3) * |sideLength| (the argument called sideLength
    is the distance from the centre to a vertex, not the length of a side);
    twice the signed area in index order is 3 * sqrt(3) / 2 * sideLength^2,
    so the vertices turn counter-clockwise for every side length except 0,
    where they all coincide with the position. *)
Theorem exact_triangle_geometry (shader : Shader) (px py : R) (color : list R)
    (sideLength : R) (s : State R) :
  let triangle := result (Triangle.constructor shader (px, py) color sideLength s) in
  let a := (px, py - sideLength) in
  let b := (px + sideLength * (R_sqrt.sqrt 3 / 2), py + sideLength * (1 / 2)) in
  let c := (px - sideLength * (R_sqrt.sqrt 3 / 2), py + sideLength * (1 / 2)) in
  (Geometry.point (Shape.vertices triangle) 0 = Some a
   /\ Geometry.point (Shape.vertices triangle) 1 = Some b
   /\ Geometry.point (Shape.vertices triangle) 2 = Some c)
  /\ ((fst a + fst b + fst c) / 3 = px /\ (snd a + snd b + snd c) / 3 = py)
  /\ (R_sqrt.sqrt (Geometry.dist2 a (px, py)) = Rabs sideLength
      /\ R_sqrt.sqrt (Geometry.dist2 b (px, py)) = Rabs sideLength
      /\ R_sqrt.sqrt (Geometry.dist2 c (px, py)) = Rabs sideLength)
  /\ (R_sqrt.sqrt (Geometry.dist2 a b) = R_sqrt.sqrt 3 * Rabs sideLength
      /\ R_sqrt.sqrt (Geometry.dist2 b c) = R_sqrt.sqrt 3 * Rabs sideLength
      /\ R_sqrt.sqrt (Geometry.dist2 c a) = R_sqrt.sqrt 3 * Rabs sideLength)
  /\ Geometry.signed_area2 a b c = 3 * R_sqrt.sqrt 3 / 2 * (sideLength * sideLength)
  /\ 0 <= Geometry.signed_area2 a b c
  /\ (Geometry.signed_area2 a b c = 0 <-> sideLength = 0)
  /\ (sideLength = 0 -> a = (px, py) /\ b = (px, py) /\ c = (px, py)).
Proof.
  intros triangle a b c.
  destruct exact_angle as (_ & Hcos & Hsin).
  assert (Hsqrt3 : R_sqrt.sqrt 3 * R_sqrt.sqrt 3 = 3) by (apply sqrt_sqrt; lra).
  assert (Hpos3 : 0 < R_sqrt.sqrt 3) by (apply sqrt_lt_R0; lra).
  assert (Hradius : forall d, d = sideLength * sideLength ->
                      R_sqrt.sqrt d = Rabs sideLength).
  { intros d ->. apply sqrt_Rsqr_abs. }
  assert (Hside : forall d, d = 3 * (sideLength * sideLength) ->
                    R_sqrt.sqrt d = R_sqrt.sqrt 3 * Rabs sideLength).
  { intros d ->. rewrite sqrt_mult_alt by lra. f_equal. apply sqrt_Rsqr_abs. }
  assert (Harea : Geometry.signed_area2 a b c =
                    3 * R_sqrt.sqrt 3 / 2 * (sideLength * sideLength)).
  { subst a b c. unfold Geometry.signed_area2. cbn. field. }
  split; [|split; [|split; [|split; [|split; [|split; [|split]]]]]].
  - subst triangle a b c. unfold Geometry.point.
    change (Shape.vertices (result (Triangle.constructor shader (px, py) color sideLength s)))
      with [ px; py - sideLength;
             px + sideLength * Math_cos (deg2rad (num_lit 30));
             py + sideLength * Math_sin (deg2rad (num_lit 30));
             px - sideLength * Math_cos (deg2rad (num_lit 30));
             py + sideLength * Math_sin (deg2rad (num_lit 30)) ].
    rewrite Hcos, Hsin. repeat split.
  - subst a b c. cbn. split; field.
  - subst a b c. unfold Geometry.dist2. cbn. repeat split; apply Hradius; nra.
  - subst a b c. unfold Geometry.dist2. cbn. repeat split; apply Hside; nra.
  - exact Harea.
  - rewrite Harea. nra.
  - rewrite Harea. split; intros Hz; [|rewrite Hz; lra]. nra.
  - intros ->. subst a b c. repeat split; f_equal; lra.
Qed.

End ExactGeometry.

Section TriangleShape.
Local Open Scope R_scope.




End TriangleShape.

Section Binary64Host.
Local Open Scope float_scope.

(** The binary64 host at the angle of the constructor, and the vertices of
    the triangle of side 1 around the origin that it gives. *)
Lemma binary64_angle :
  deg2rad (num_lit 30) = 0x1.0c152382d7365p-1
  /\ Math_cos (deg2rad (num_lit 30)) = 0x1.bb67ae8584cabp-1
  /\ Math_sin (deg2rad (num_lit 30)) = 0x1.fffffffffffffp-2
  /\ Shape.vertices (result (Triangle.constructor basic_shader (0, 0) [] 1 fresh)) =
       [ 0; -1; 0x1.bb67ae8584cabp-1; 0x1.fffffffffffffp-2;
         -0x1.bb67ae8584cabp-1; 0x1.fffffffffffffp-2 ].
Proof. vm_compute. repeat split. Qed.

End Binary64Host.
